(** * ICMP Echo Request/Reply (src/ICMP/icmp.cpp)

    A shallow embedding of the ICMP ping core: the Internet checksum,
    the Echo Request encoder, the reply validator and the exchange
    coordinator [send_ping], together with the properties stated for
    them.

    Conventions.
    - [uint8_t] is [Byte.byte]; its numeric value is [byte_val].
    - [uint16_t], [uint32_t], [size_t], [ssize_t] and [int] values are
      [Z], with the wrap-around of every C++ operation written out
      ([u16], [u32], [u64], [to_int]).
    - A buffer ([const void*] plus a length, a [std::vector<uint8_t>],
      a [uint8_t[]]) is a [list byte].
    - The byte order of the host is a parameter ([endianness]); the
      functions [ntohs], [htons] and every reinterpretation of two bytes
      as a [uint16_t] depend on it.
    - The socket, the clock and the output streams are the operating
      system: [send_ping] runs in a state monad over the state of the
      system and records every call it makes in a trace.

    [main] runs over the same system extended with [inet_pton],
    [socket], [getpid] and [close].  The FTP and HTTP clients of the
    repository are not modelled. *)

From Stdlib Require Import ZArith List Bool Lia String Ascii QArith.
From Stdlib.Strings Require Import Byte.
From Stdlib Require Import DecimalString.
From Equations Require Import Equations.
Import ListNotations.

Local Open Scope Z_scope.

(** ** Machine integers *)

Definition u8 (z : Z) : Z := z mod 2 ^ 8.
Definition u16 (z : Z) : Z := z mod 2 ^ 16.
Definition u32 (z : Z) : Z := z mod 2 ^ 32.
Definition u64 (z : Z) : Z := z mod 2 ^ 64.

(** Conversion to the 32-bit signed [int] (two's complement). *)
Definition to_int (z : Z) : Z := (z + 2 ^ 31) mod 2 ^ 32 - 2 ^ 31.

Definition byte_val (b : byte) : Z := Z.of_N (Byte.to_N b).

(** The byte whose value is [z mod 256]. *)
Definition byte_of (z : Z) : byte :=
  match Byte.of_N (Z.to_N (u8 z)) with
  | Some b => b
  | None => x00
  end.

(** ** Byte order *)

Inductive endianness := LittleEndian | BigEndian.

(** Swap the two bytes of a 16-bit value. *)
Definition bswap16 (v : Z) : Z :=
  Z.lor (Z.shiftl (Z.land v 255) 8) (Z.land (Z.shiftr v 8) 255).

(** ** Checksum engine: the carry fold

    [while (sum >> 16) sum = (sum & 0xFFFF) + (sum >> 16);]
    [sum] is a [uint32_t], so [sum >> 16] is nonzero exactly when it is
    positive. *)
Equations? fold_carry (sum : Z) : Z by wf (Z.to_nat sum) lt :=
  fold_carry sum with Z_lt_dec 0 (Z.shiftr sum 16) => {
    | left Hcarry := fold_carry (Z.land sum 65535 + Z.shiftr sum 16);
    | right Hdone := sum }.
Proof.
  rewrite Z.shiftr_div_pow2 in * by lia.
  change 65535 with (Z.ones 16). rewrite Z.land_ones by lia.
  assert (0 < sum) by (destruct (Z_lt_dec 0 sum); [assumption|];
    exfalso; assert (sum / 2 ^ 16 <= 0) by (apply Z.div_le_upper_bound; lia); lia).
  pose proof (Z.div_mod sum (2 ^ 16) ltac:(lia)).
  pose proof (Z.mod_pos_bound sum (2 ^ 16) ltac:(lia)).
  lia.
Qed.

Section Host.

Variable host : endianness.

(** The [uint16_t] read by the host from two consecutive bytes of memory. *)
Definition load16 (b0 b1 : byte) : Z :=
  match host with
  | LittleEndian => Z.lor (byte_val b0) (Z.shiftl (byte_val b1) 8)
  | BigEndian => Z.lor (Z.shiftl (byte_val b0) 8) (byte_val b1)
  end.

(** The two bytes of memory the host writes for a [uint16_t] ([memcpy]
    of the object). *)
Definition store16 (v : Z) : list byte :=
  match host with
  | LittleEndian => [byte_of (Z.land v 255); byte_of (Z.shiftr v 8)]
  | BigEndian => [byte_of (Z.shiftr v 8); byte_of (Z.land v 255)]
  end.

Definition ntohs (v : Z) : Z :=
  match host with
  | LittleEndian => bswap16 v
  | BigEndian => v
  end.

Definition htons (v : Z) : Z :=
  match host with
  | LittleEndian => bswap16 v
  | BigEndian => v
  end.

(** ** Checksum engine *)

(** The buffer seen through [static_cast<const uint16_t*>(data)]: the
    complete 16-bit words, each as the host reads it. *)
Fixpoint as_words (data : list byte) : list Z :=
  match data with
  | b0 :: b1 :: rest => load16 b0 b1 :: as_words rest
  | _ => []
  end.

(** [bytes[i]]; a read past the end of the list stands for a read
    outside the object and yields [x00]. *)
Definition byte_at (bytes : list byte) (i : Z) : byte :=
  nth (Z.to_nat i) bytes x00.

Definition icmp_checksum (data : list byte) : Z :=
  let length := Z.of_nat (List.length data) in
  (* for (i = 0; i < length / 2; ++i) sum += ntohs(words[i]); *)
  let sum :=
    fold_left (fun sum w => u32 (sum + ntohs w))
              (firstn (Z.to_nat (length / 2)) (as_words data)) 0 in
  (* if (length % 2) sum += (bytes[length - 1] << 8); *)
  let sum :=
    if negb (length mod 2 =? 0)
    then u32 (sum + Z.shiftl (byte_val (byte_at data (length - 1))) 8)
    else sum in
  let sum := fold_carry sum in
  htons (u16 (u32 (Z.lnot sum))).

(** ** Packet codec *)

Definition ICMP_ECHOREPLY : Z := 0.
Definition ICMP_ECHO : Z := 8.

(** [struct icmphdr] of <netinet/ip_icmp.h>, echo variant of the union:
    type(1) code(1) checksum(2) id(2) sequence(2).  The 16-bit fields
    hold the value the host reads from the object. *)
Record icmphdr := {
  hdr_type : byte;
  hdr_code : byte;
  hdr_checksum : Z;
  echo_id : Z;
  echo_sequence : Z
}.

Definition sizeof_icmphdr : Z := 8.

(** The object representation of a header ([memcpy] out of it). *)
Definition icmphdr_bytes (h : icmphdr) : list byte :=
  [hdr_type h; hdr_code h] ++ store16 (hdr_checksum h)
    ++ store16 (echo_id h) ++ store16 (echo_sequence h).

(** [reinterpret_cast<struct icmphdr*>(buffer + off)]. *)
Definition icmphdr_at (buffer : list byte) (off : Z) : icmphdr :=
  {| hdr_type := byte_at buffer off;
     hdr_code := byte_at buffer (off + 1);
     hdr_checksum := load16 (byte_at buffer (off + 2)) (byte_at buffer (off + 3));
     echo_id := load16 (byte_at buffer (off + 4)) (byte_at buffer (off + 5));
     echo_sequence := load16 (byte_at buffer (off + 6)) (byte_at buffer (off + 7)) |}.

(** [memcpy(dst + off, src, |src|)] inside [dst]. *)
Definition memcpy (dst : list byte) (off : nat) (src : list byte) : list byte :=
  firstn off dst ++ src ++ skipn (off + List.length src) dst.

Definition create_icmp_echo_request (identifier sequence : Z) (payload : string)
  : list byte :=
  let header :=
    {| hdr_type := byte_of ICMP_ECHO;
       hdr_code := byte_of 0;
       hdr_checksum := 0;
       echo_id := htons identifier;
       echo_sequence := htons sequence |} in
  let packet :=
    repeat x00 (Z.to_nat sizeof_icmphdr + String.length payload) in
  let packet := memcpy packet 0 (icmphdr_bytes header) in
  let packet :=
    if negb (String.length payload =? 0)%nat
    then memcpy packet (Z.to_nat sizeof_icmphdr) (list_byte_of_string payload)
    else packet in
  let checksum := icmp_checksum packet in
  memcpy packet 2 (store16 checksum).

Definition get_ip_header_length (ip_packet : list byte) : Z :=
  let ihl_words := u8 (Z.land (byte_val (byte_at ip_packet 0)) 15) in
  ihl_words * 4.

Definition validate_icmp_response (icmp_hdr : icmphdr) (expected_id expected_seq : Z)
  : bool :=
  if negb (byte_val (hdr_type icmp_hdr) =? ICMP_ECHOREPLY)
     || negb (byte_val (hdr_code icmp_hdr) =? 0)
  then false
  else (ntohs (echo_id icmp_hdr) =? expected_id)
       && (ntohs (echo_sequence icmp_hdr) =? expected_seq).

End Host.

(** ** Exchange coordinator: data *)

Definition BUFFER_SIZE : Z := 1500.
Definition TIMEOUT_SECONDS : Z := 2.
Definition DEFAULT_SEQUENCE : Z := 1.

(** [rtt_ms] is a [double] in the source; it is kept here as the exact
    rational (microseconds / 1000) that the double approximates. *)
Record PingResult := {
  success : bool;
  rtt_ms : Q;
  from_addr : string;
  bytes_received : Z;
  ttl : Z;
  sequence : Z;
  identifier : Z
}.

Definition set_success (r : PingResult) (v : bool) : PingResult :=
  {| success := v; rtt_ms := rtt_ms r; from_addr := from_addr r;
     bytes_received := bytes_received r; ttl := ttl r;
     sequence := sequence r; identifier := identifier r |}.
Definition set_rtt_ms (r : PingResult) (v : Q) : PingResult :=
  {| success := success r; rtt_ms := v; from_addr := from_addr r;
     bytes_received := bytes_received r; ttl := ttl r;
     sequence := sequence r; identifier := identifier r |}.
Definition set_from_addr (r : PingResult) (v : string) : PingResult :=
  {| success := success r; rtt_ms := rtt_ms r; from_addr := v;
     bytes_received := bytes_received r; ttl := ttl r;
     sequence := sequence r; identifier := identifier r |}.
Definition set_bytes_received (r : PingResult) (v : Z) : PingResult :=
  {| success := success r; rtt_ms := rtt_ms r; from_addr := from_addr r;
     bytes_received := v; ttl := ttl r;
     sequence := sequence r; identifier := identifier r |}.
Definition set_ttl (r : PingResult) (v : Z) : PingResult :=
  {| success := success r; rtt_ms := rtt_ms r; from_addr := from_addr r;
     bytes_received := bytes_received r; ttl := v;
     sequence := sequence r; identifier := identifier r |}.
Definition set_sequence (r : PingResult) (v : Z) : PingResult :=
  {| success := success r; rtt_ms := rtt_ms r; from_addr := from_addr r;
     bytes_received := bytes_received r; ttl := ttl r;
     sequence := v; identifier := identifier r |}.
Definition set_identifier (r : PingResult) (v : Z) : PingResult :=
  {| success := success r; rtt_ms := rtt_ms r; from_addr := from_addr r;
     bytes_received := bytes_received r; ttl := ttl r;
     sequence := sequence r; identifier := v |}.

(** [PingResult result{}]: every member value-initialised. *)
Definition PingResult_zero : PingResult :=
  {| success := false; rtt_ms := 0%Q; from_addr := EmptyString;
     bytes_received := 0; ttl := 0; sequence := 0; identifier := 0 |}.

Record timeval := { tv_sec : Z; tv_usec : Z }.

(** [struct in_addr]: the four address bytes as they lie in memory. *)
Definition in_addr : Type := (byte * byte * byte * byte)%type.

Record sockaddr_in := { sin_family : Z; sin_port : Z; sin_addr : in_addr }.

(** [std::to_string] of an [int], and [operator<<] of an integer. *)
Definition to_string (n : Z) : string := NilZero.string_of_int (Z.to_int n).

(** [inet_ntop(AF_INET, ...)]: dotted decimal. *)
Definition inet_ntop (a : in_addr) : string :=
  let '(a0, a1, a2, a3) := a in
  (to_string (byte_val a0) ++ "." ++ to_string (byte_val a1) ++ "."
   ++ to_string (byte_val a2) ++ "." ++ to_string (byte_val a3))%string.

(** Conversions between [ssize_t] and [size_t]. *)
Definition to_ssize (z : Z) : Z := (z + 2 ^ 63) mod 2 ^ 64 - 2 ^ 63.

(** ** Exchange coordinator: the operating system

    Every interaction of [send_ping] with its environment is a call
    answered by the operating system.  A call is recorded, with its
    arguments and its answer, in the trace of the run. *)
Inductive call :=
| CallNow (t : Z)
    (* steady_clock::now(), in clock ticks (nanoseconds) *)
| CallSendto (sock : Z) (packet : list byte) (flags : Z) (dest : sockaddr_in) (ret : Z)
| CallSelect (nfds : Z) (readfds : list Z) (timeout : timeval) (ret : Z)
| CallRecvfrom (sock len flags : Z) (ret : Z) (buffer : list byte) (from : sockaddr_in)
| CallStrerror (msg : string)
    (* strerror(errno) *)
| CallCout (line : string)
| CallCerr (line : string).

(** The operating system as a deterministic machine over a state [W]:
    each call returns its answer and the next state.  [os_recvfrom]
    answers with the return value, the content of the whole receive
    buffer after the call and the sender address it stored. *)
Record os (W : Type) := {
  os_now : W -> Z * W;
  os_sendto : Z -> list byte -> Z -> sockaddr_in -> W -> Z * W;
  os_select : Z -> list Z -> timeval -> W -> Z * W;
  os_recvfrom : Z -> Z -> Z -> W -> (Z * list byte * sockaddr_in) * W;
  os_strerror : W -> string * W
}.
Arguments os_now {W}.
Arguments os_sendto {W}.
Arguments os_select {W}.
Arguments os_recvfrom {W}.
Arguments os_strerror {W}.

Section Coordinator.

Variable host : endianness.
Variable W : Type.
Variable sys : os W.

(** Computations that call the operating system and extend the trace. *)
Definition M (A : Type) : Type := W * list call -> A * (W * list call).

Definition ret {A : Type} (a : A) : M A := fun st => (a, st).

Definition bind {A B : Type} (m : M A) (k : A -> M B) : M B :=
  fun st => let '(a, st') := m st in k a st'.

Notation "x <- m ;; k" := (bind m (fun x => k))
  (at level 61, m at next level, right associativity).
Notation "' pat <- m ;; k" := (bind m (fun x => let 'pat := x in k))
  (at level 61, pat pattern, m at next level, right associativity).
Notation "m ;;; k" := (bind m (fun _ => k))
  (at level 61, right associativity).

(** A call answered by the operating system. *)
Definition syscall {A : Type} (f : W -> A * W) (record : A -> call) : M A :=
  fun '(w, tr) => let '(a, w') := f w in (a, (w', tr ++ [record a])).

(** A call that only produces output. *)
Definition emit (c : call) : M unit :=
  fun '(w, tr) => (tt, (w, tr ++ [c])).

Definition now : M Z := syscall (os_now sys) CallNow.

Definition sendto (sock : Z) (packet : list byte) (flags : Z) (dest : sockaddr_in)
  : M Z :=
  syscall (os_sendto sys sock packet flags dest) (CallSendto sock packet flags dest).

Definition select (nfds : Z) (readfds : list Z) (timeout : timeval) : M Z :=
  syscall (os_select sys nfds readfds timeout) (CallSelect nfds readfds timeout).

Definition recvfrom (sock len flags : Z) : M (Z * list byte * sockaddr_in) :=
  syscall (os_recvfrom sys sock len flags)
          (fun '(r, buffer, from) => CallRecvfrom sock len flags r buffer from).

Definition strerror_errno : M string := syscall (os_strerror sys) CallStrerror.

Definition cout (line : string) : M unit := emit (CallCout line).
Definition cerr (line : string) : M unit := emit (CallCerr line).

(** ** Exchange coordinator: [send_ping]

    Each early [return result;] of the source is the end of the
    corresponding branch.  A line written to a stream is recorded as one
    call, without its final [std::endl]. *)
Definition send_ping (sock : Z) (dest : sockaddr_in) (identifier sequence : Z)
  : M PingResult :=
  let result := PingResult_zero in
  let result := set_sequence result sequence in
  let result := set_identifier result identifier in
  send_time <- now ;;
  let payload := ("PING_PAYLOAD_" ++ to_string sequence)%string in
  let packet := create_icmp_echo_request host identifier sequence payload in
  sent <- sendto sock packet 0 dest ;;
  if sent <=? 0 then
    msg <- strerror_errno ;;
    cerr ("Erro no envio: " ++ msg) ;;;
    ret result
  else
    let timeout := {| tv_sec := TIMEOUT_SECONDS; tv_usec := 0 |} in
    ready <- select (sock + 1) [sock] timeout ;;
    if ready <=? 0 then
      (if ready =? 0
       then cout ("Timeout para sequência " ++ to_string sequence)
       else (msg <- strerror_errno ;; cerr ("Erro no select: " ++ msg))) ;;;
      ret result
    else
      '(received, buffer, from) <- recvfrom sock BUFFER_SIZE 0 ;;
      if received <=? 0 then
        msg <- strerror_errno ;;
        cerr ("Erro na recepção: " ++ msg) ;;;
        ret result
      else
        recv_time <- now ;;
        let ip_header_len := get_ip_header_length buffer in
        if received <? to_ssize (u64 (ip_header_len + sizeof_icmphdr)) then
          cerr "Pacote recebido muito curto" ;;;
          ret result
        else
          let icmp_response := icmphdr_at host buffer ip_header_len in
          if negb (validate_icmp_response host icmp_response identifier sequence) then
            cout "Resposta ICMP inválida ou não esperada" ;;;
            ret result
          else
            let result := set_success result true in
            let result :=
              set_rtt_ms result (Qmake (Z.quot (recv_time - send_time) 1000) 1000) in
            let result := set_from_addr result (inet_ntop (sin_addr from)) in
            let result :=
              set_bytes_received result
                (to_int (u64 (u64 (u64 received - ip_header_len) - sizeof_icmphdr))) in
            let result := set_ttl result (byte_val (byte_at buffer 8)) in
            ret result.

(** One call of [send_ping] from the state [w] of the operating system:
    the result and the calls made, in order. *)
Definition run_send_ping (sock : Z) (dest : sockaddr_in) (identifier sequence : Z)
  (w : W) : PingResult * list call :=
  let '(result, (_, tr)) := send_ping sock dest identifier sequence (w, []) in
  (result, tr).

End Coordinator.

Arguments send_ping host {W} sys sock dest identifier sequence _.
Arguments run_send_ping host {W} sys sock dest identifier sequence w.

(** ** The program entry point: [main]

    [main] adds four calls to those of [send_ping]: [inet_pton],
    [socket], [getpid] and [close].  The calls of [send_ping] and the
    lines written by [main] itself appear in the trace of [main] under
    [Base]. *)

Definition AF_INET : Z := 2.
Definition SOCK_RAW : Z := 3.
Definition IPPROTO_ICMP : Z := 1.

Inductive main_call :=
| Base (c : call)
| CallInetPton (af : Z) (src : string) (ret : Z) (dst : in_addr)
| CallSocket (domain kind protocol : Z) (ret : Z)
| CallGetpid (pid : Z)
| CallClose (fd : Z) (ret : Z).

(** The process environment of [main]: the operating system of
    [send_ping], the library function [inet_pton] (its return value and
    the address object after the call), the three further system calls,
    and the text [operator<<] produces for a [double] under [std::fixed]
    and [std::setprecision(3)]. *)
Record process (W : Type) := {
  kernel : os W;
  lib_inet_pton : Z -> string -> Z * in_addr;
  os_socket : Z -> Z -> Z -> W -> Z * W;
  os_getpid : W -> Z * W;
  os_close : Z -> W -> Z * W;
  format_fixed3 : Q -> string
}.
Arguments kernel {W}.
Arguments lib_inet_pton {W}.
Arguments os_socket {W}.
Arguments os_getpid {W}.
Arguments os_close {W}.
Arguments format_fixed3 {W}.

Section Main.

Variable host : endianness.
Variable W : Type.
Variable proc : process W.

Definition MM (A : Type) : Type := W * list main_call -> A * (W * list main_call).

Definition mret {A : Type} (a : A) : MM A := fun st => (a, st).

Definition mbind {A B : Type} (m : MM A) (k : A -> MM B) : MM B :=
  fun st => let '(a, st') := m st in k a st'.

Notation "x <- m ;; k" := (mbind m (fun x => k))
  (at level 61, m at next level, right associativity).
Notation "' pat <- m ;; k" := (mbind m (fun x => let 'pat := x in k))
  (at level 61, pat pattern, m at next level, right associativity).
Notation "m ;;; k" := (mbind m (fun _ => k))
  (at level 61, right associativity).

Definition msyscall {A : Type} (f : W -> A * W) (record : A -> main_call) : MM A :=
  fun '(w, tr) => let '(a, w') := f w in (a, (w', tr ++ [record a])).

(** A computation of the coordinator run inside [main]: its calls are
    appended to the trace of [main]. *)
Definition lift {A : Type} (m : M W A) : MM A :=
  fun '(w, tr) => let '(a, (w', tr')) := m (w, []) in (a, (w', tr ++ map Base tr')).

Definition main_inet_pton (af : Z) (src : string) : MM (Z * in_addr) :=
  msyscall (fun w => (lib_inet_pton proc af src, w))
           (fun '(r, dst) => CallInetPton af src r dst).

Definition main_socket (domain kind protocol : Z) : MM Z :=
  msyscall (os_socket proc domain kind protocol) (CallSocket domain kind protocol).

Definition main_getpid : MM Z := msyscall (os_getpid proc) CallGetpid.

Definition main_close (fd : Z) : MM Z := msyscall (os_close proc fd) (CallClose fd).

Definition main_cout (line : string) : MM unit := lift (cout W line).
Definition main_cerr (line : string) : MM unit := lift (cerr W line).
Definition main_strerror : MM string := lift (strerror_errno W (kernel proc)).

(** The line printed for a successful ping. *)
Definition response_line (result : PingResult) : string :=
  ("Resposta de " ++ from_addr result
   ++ ": bytes=" ++ to_string (bytes_received result)
   ++ " sequência=" ++ to_string (sequence result)
   ++ " TTL=" ++ to_string (ttl result)
   ++ " tempo=" ++ format_fixed3 proc (rtt_ms result) ++ "ms")%string.

(** [argv[i]]; an index past the arguments yields the empty string. *)
Definition arg (argv : list string) (i : nat) : string := nth i argv EmptyString.

Definition main (argv : list string) : MM Z :=
  let argc := Z.of_nat (List.length argv) in
  if negb (argc =? 2) then
    main_cerr ("Uso: " ++ arg argv 0 ++ " <endereço_IPv4>") ;;;
    mret 1
  else
    '(r, addr) <- main_inet_pton AF_INET (arg argv 1) ;;
    let destino := {| sin_family := AF_INET; sin_port := 0; sin_addr := addr |} in
    if negb (r =? 1) then
      main_cerr ("Endereço IP inválido: " ++ arg argv 1) ;;;
      mret 1
    else
      sock <- main_socket AF_INET SOCK_RAW IPPROTO_ICMP ;;
      if sock <? 0 then
        msg <- main_strerror ;;
        main_cerr ("Erro ao criar socket RAW: " ++ msg) ;;;
        main_cerr "Execute com privilégios de root (sudo)" ;;;
        mret 1
      else
        shown_pid <- main_getpid ;;
        main_cout ("PING " ++ arg argv 1 ++ " com ID=" ++ to_string shown_pid) ;;;
        pid <- main_getpid ;;
        let identifier := u16 (Z.land pid 65535) in
        result <- lift (send_ping host (kernel proc) sock destino
                          identifier DEFAULT_SEQUENCE) ;;
        (if success result
         then main_cout (response_line result)
         else main_cout ("Falha no ping para " ++ arg argv 1)) ;;;
        _ <- main_close sock ;;
        mret (if success result then 0 else 1).

(** One execution of [main]: the exit status and the calls made. *)
Definition run_main (argv : list string) (w : W) : Z * list main_call :=
  let '(status, (_, tr)) := main argv (w, []) in (status, tr).

End Main.

Arguments response_line {W} proc result.
Arguments main host {W} proc argv _.
Arguments run_main host {W} proc argv w.

(** ** Reference quantities used by the statements *)

(** The 16-bit value whose network-order (big-endian) bytes are [b0 b1]. *)
Definition be16 (b0 b1 : byte) : Z := byte_val b0 * 256 + byte_val b1.

(** The exact (unbounded) sum of the big-endian words of a buffer, an odd
    trailing byte counting as the high byte of a last word. *)
Fixpoint word_total (data : list byte) : Z :=
  match data with
  | b0 :: b1 :: rest => be16 b0 b1 + word_total rest
  | [b] => byte_val b * 256
  | [] => 0
  end.

(** A header whose 16-bit fields are [uint16_t] values. *)
Definition wf_icmphdr (h : icmphdr) : Prop :=
  0 <= hdr_checksum h < 65536 /\ 0 <= echo_id h < 65536
  /\ 0 <= echo_sequence h < 65536.

(** A header with one field replaced. *)
Definition with_type (h : icmphdr) (t : byte) : icmphdr :=
  {| hdr_type := t; hdr_code := hdr_code h; hdr_checksum := hdr_checksum h;
     echo_id := echo_id h; echo_sequence := echo_sequence h |}.
Definition with_code (h : icmphdr) (c : byte) : icmphdr :=
  {| hdr_type := hdr_type h; hdr_code := c; hdr_checksum := hdr_checksum h;
     echo_id := echo_id h; echo_sequence := echo_sequence h |}.
Definition with_id (h : icmphdr) (i : Z) : icmphdr :=
  {| hdr_type := hdr_type h; hdr_code := hdr_code h; hdr_checksum := hdr_checksum h;
     echo_id := i; echo_sequence := echo_sequence h |}.
Definition with_sequence (h : icmphdr) (s : Z) : icmphdr :=
  {| hdr_type := hdr_type h; hdr_code := hdr_code h; hdr_checksum := hdr_checksum h;
     echo_id := echo_id h; echo_sequence := s |}.

(** ** The exits of one exchange

    [ping_path] lists the seven ways a call of [send_ping] can end, each
    with the result returned and the complete trace of calls. *)
Section Paths.

Variable host : endianness.
Variables (sock : Z) (dest : sockaddr_in) (ident seqno : Z).

Definition request : list byte :=
  create_icmp_echo_request host ident seqno
    ("PING_PAYLOAD_" ++ to_string seqno)%string.

(** The result of every failure exit: only the two fields assigned at
    entry are set. *)
Definition failed : PingResult :=
  {| success := false; rtt_ms := 0%Q; from_addr := EmptyString;
     bytes_received := 0; ttl := 0;
     sequence := seqno; identifier := ident |}.

Definition sent_calls (t0 sent : Z) : list call :=
  [CallNow t0; CallSendto sock request 0 dest sent].

Definition wait_call (ready : Z) : call :=
  CallSelect (sock + 1) [sock] {| tv_sec := TIMEOUT_SECONDS; tv_usec := 0 |} ready.

Definition recv_call (received : Z) (buffer : list byte) (from : sockaddr_in) : call :=
  CallRecvfrom sock BUFFER_SIZE 0 received buffer from.

(** The datagram is too short to hold the IP and ICMP headers. *)
Definition truncated (received : Z) (buffer : list byte) : bool :=
  received <? to_ssize (u64 (get_ip_header_length buffer + sizeof_icmphdr)).

(** The ICMP header found behind the IP header is the expected reply. *)
Definition matches (buffer : list byte) : bool :=
  validate_icmp_response host
    (icmphdr_at host buffer (get_ip_header_length buffer)) ident seqno.

Inductive ping_path : PingResult -> list call -> Prop :=
| PathSendFailed t0 sent msg :
    sent <= 0 ->
    ping_path failed
      (sent_calls t0 sent ++ [CallStrerror msg; CallCerr ("Erro no envio: " ++ msg)])
| PathTimedOut t0 sent :
    0 < sent ->
    ping_path failed
      (sent_calls t0 sent
       ++ [wait_call 0; CallCout ("Timeout para sequência " ++ to_string seqno)])
| PathSelectError t0 sent ready msg :
    0 < sent -> ready < 0 ->
    ping_path failed
      (sent_calls t0 sent
       ++ [wait_call ready; CallStrerror msg; CallCerr ("Erro no select: " ++ msg)])
| PathRecvFailed t0 sent ready received buffer from msg :
    0 < sent -> 0 < ready -> received <= 0 ->
    ping_path failed
      (sent_calls t0 sent
       ++ [wait_call ready; recv_call received buffer from;
           CallStrerror msg; CallCerr ("Erro na recepção: " ++ msg)])
| PathTruncated t0 sent ready received buffer from t1 :
    0 < sent -> 0 < ready -> 0 < received ->
    truncated received buffer = true ->
    ping_path failed
      (sent_calls t0 sent
       ++ [wait_call ready; recv_call received buffer from;
           CallNow t1; CallCerr "Pacote recebido muito curto"])
| PathMismatch t0 sent ready received buffer from t1 :
    0 < sent -> 0 < ready -> 0 < received ->
    truncated received buffer = false ->
    matches buffer = false ->
    ping_path failed
      (sent_calls t0 sent
       ++ [wait_call ready; recv_call received buffer from;
           CallNow t1; CallCout "Resposta ICMP inválida ou não esperada"])
| PathValidated t0 sent ready received buffer from t1 :
    0 < sent -> 0 < ready -> 0 < received ->
    truncated received buffer = false ->
    matches buffer = true ->
    ping_path
      {| success := true;
         rtt_ms := Qmake (Z.quot (t1 - t0) 1000) 1000;
         from_addr := inet_ntop (sin_addr from);
         bytes_received :=
           to_int (u64 (u64 (u64 received - get_ip_header_length buffer)
                        - sizeof_icmphdr));
         ttl := byte_val (byte_at buffer 8);
         sequence := seqno; identifier := ident |}
      (sent_calls t0 sent
       ++ [wait_call ready; recv_call received buffer from; CallNow t1]).

(** A call whose answer sends [send_ping] to a failure exit. *)
Definition failed_call (c : call) : bool :=
  match c with
  | CallSendto _ _ _ _ sent => sent <=? 0
  | CallSelect _ _ _ ready => ready <=? 0
  | CallRecvfrom _ _ _ received buffer _ =>
      (received <=? 0) || truncated received buffer || negb (matches buffer)
  | _ => false
  end.

(** The run took a failure path: send failure, timeout, wait-mechanism
    error, receive failure, truncated datagram or validation mismatch. *)
Definition failure_path (tr : list call) : bool := existsb failed_call tr.

(** A received datagram whose ICMP header is not the expected reply. *)
Definition rejected_reply (c : call) : bool :=
  match c with
  | CallRecvfrom _ _ _ _ buffer _ => negb (matches buffer)
  | _ => false
  end.

End Paths.

Definition is_recvfrom (c : call) : bool :=
  match c with CallRecvfrom _ _ _ _ _ _ => true | _ => false end.

(** Calls that neither send, wait nor receive: the clock and the output
    streams. *)
Definition is_passive (c : call) : bool :=
  match c with
  | CallNow _ | CallStrerror _ | CallCout _ | CallCerr _ => true
  | _ => false
  end.

(** What [recvfrom] guarantees for a call with [flags = 0]: it returns at
    most [len], and the buffer object keeps its [len] bytes. *)
Definition recvfrom_contract (c : call) : Prop :=
  match c with
  | CallRecvfrom _ len _ received buffer _ =>
      received <= len /\ Z.of_nat (List.length buffer) = len
  | _ => True
  end.

Definition is_sendto (c : call) : bool :=
  match c with CallSendto _ _ _ _ _ => true | _ => false end.

Definition is_close (c : main_call) : bool :=
  match c with CallClose _ _ => true | _ => false end.

(** The exits of [main].  The last one contains a whole exchange: any
    result and trace that [send_ping] can produce on the new socket. *)
Inductive main_exit (host : endianness) {W : Type} (proc : process W)
  (argv : list string) : Z -> list main_call -> Prop :=
| ExitUsage :
    List.length argv <> 2%nat ->
    main_exit host proc argv 1
      [Base (CallCerr ("Uso: " ++ arg argv 0 ++ " <endereço_IPv4>"))]
| ExitBadAddress r addr :
    List.length argv = 2%nat ->
    lib_inet_pton proc AF_INET (arg argv 1) = (r, addr) -> r <> 1 ->
    main_exit host proc argv 1
      [CallInetPton AF_INET (arg argv 1) r addr;
       Base (CallCerr ("Endereço IP inválido: " ++ arg argv 1))]
| ExitNoSocket addr sock msg :
    List.length argv = 2%nat ->
    lib_inet_pton proc AF_INET (arg argv 1) = (1, addr) -> sock < 0 ->
    main_exit host proc argv 1
      [CallInetPton AF_INET (arg argv 1) 1 addr;
       CallSocket AF_INET SOCK_RAW IPPROTO_ICMP sock;
       Base (CallStrerror msg);
       Base (CallCerr ("Erro ao criar socket RAW: " ++ msg));
       Base (CallCerr "Execute com privilégios de root (sudo)")]
| ExitPing addr sock shown_pid pid result tr closed :
    List.length argv = 2%nat ->
    lib_inet_pton proc AF_INET (arg argv 1) = (1, addr) -> 0 <= sock ->
    ping_path host sock
      {| sin_family := AF_INET; sin_port := 0; sin_addr := addr |}
      (u16 (Z.land pid 65535)) DEFAULT_SEQUENCE result tr ->
    main_exit host proc argv (if success result then 0 else 1)
      ([CallInetPton AF_INET (arg argv 1) 1 addr;
        CallSocket AF_INET SOCK_RAW IPPROTO_ICMP sock;
        CallGetpid shown_pid;
        Base (CallCout ("PING " ++ arg argv 1 ++ " com ID=" ++ to_string shown_pid));
        CallGetpid pid]
       ++ map Base tr
       ++ [Base (CallCout (if success result
                           then response_line proc result
                           else "Falha no ping para " ++ arg argv 1));
           CallClose sock closed]).

(** ** Sample environments *)

Definition localhost : sockaddr_in :=
  {| sin_family := 2; sin_port := 0; sin_addr := (x7f, x00, x00, x01) |}.

(** A scripted system: fixed answers to [sendto], [select] and
    [recvfrom]; the state is the clock, advanced by 250 microseconds at
    each reading. *)
Definition scripted_os (sent ready received : Z) (buffer : list byte) : os Z :=
  {| os_now := fun t => (t, t + 250000);
     os_sendto := fun _ _ _ _ t => (sent, t);
     os_select := fun _ _ _ t => (ready, t);
     os_recvfrom := fun _ _ _ t => ((received, buffer, localhost), t);
     os_strerror := fun t => ("Operation not permitted"%string, t) |}.

(** No reply ever arrives: [select] times out. *)
Definition silent_os : os Z := scripted_os 22 0 0 (repeat x00 1500).

(** A loopback responder: it remembers the request and answers with the
    same ICMP message, type set to Echo Reply and checksum recomputed,
    behind a 20-byte IP header with TTL 64. *)
Definition loopback_reply (host : endianness) (packet : list byte) : list byte :=
  let reply := memcpy (memcpy packet 0 [x00]) 2 [x00; x00] in
  let reply := memcpy reply 2 (store16 host (icmp_checksum host reply)) in
  [x45; x00; x00; x00; x00; x00; x00; x00; x40; x01;
   x00; x00; x7f; x00; x00; x01; x7f; x00; x00; x01] ++ reply.

Definition loopback_os (host : endianness) : os (Z * list byte) :=
  {| os_now := fun '(t, p) => (t, (t + 250000, p));
     os_sendto := fun _ packet _ _ '(t, _) =>
                    (Z.of_nat (List.length packet), (t, packet));
     os_select := fun _ _ _ w => (1, w);
     os_recvfrom := fun _ len _ '(t, p) =>
       let datagram := loopback_reply host p in
       ((Z.of_nat (List.length datagram),
         datagram ++ repeat x00 (Z.to_nat len - List.length datagram),
         localhost), (t, p));
     os_strerror := fun w => ("Success"%string, w) |}.

(** A system that delivers a stray Echo Reply: right type and code, but
    identifier 999. *)
Definition stray_datagram : list byte :=
  [x45; x00; x00; x1c; x00; x00; x00; x00; x40; x01;
   x00; x00; x7f; x00; x00; x01; x7f; x00; x00; x01;
   x00; x00; xfc; x17; x03; xe7; x00; x01].

Definition stranger_os : os Z :=
  scripted_os 22 1 28 (stray_datagram ++ repeat x00 1472).

(** An Echo Reply header for identifier 1234 and sequence 1, as a
    little-endian host reads it from the wire, and the same header with
    its checksum bytes cleared. *)
Definition crafted_reply : icmphdr :=
  icmphdr_at LittleEndian [x00; x00; xfb; x2c; x04; xd2; x00; x01] 0.

Definition crafted_reply_no_checksum : icmphdr :=
  icmphdr_at LittleEndian [x00; x00; x00; x00; x04; xd2; x00; x01] 0.

(** A request of odd length (9 bytes). *)
Definition odd_buffer : list byte :=
  [x08; x00; xff; xff; x04; xd2; x00; x01; x50].

(** A system that delivers the Echo Reply to the request for identifier
    777 and sequence 5: the request with type 0 and the checksum bytes
    [0xd0 0xee], behind a 20-byte IP header with TTL 64. *)
Definition echoed_datagram : list byte :=
  [x45; x00; x00; x2a; x00; x00; x00; x00; x40; x01;
   x00; x00; x7f; x00; x00; x01; x7f; x00; x00; x01]
  ++ x00 :: x00 :: xd0 :: xee :: skipn 4 (request LittleEndian 777 5).

Definition echo_os : os Z :=
  scripted_os 22 1 42 (echoed_datagram ++ repeat x00 1458).

(** A process on the loopback system: [inet_pton] accepts only
    127.0.0.1, [socket] answers descriptor 3 and the process id is
    70000. *)
Definition loopback_process (host : endianness) : process (Z * list byte) :=
  {| kernel := loopback_os host;
     lib_inet_pton := fun _ src =>
       if String.eqb src "127.0.0.1" then (1, (x7f, x00, x00, x01))
       else (0, (x00, x00, x00, x00));
     os_socket := fun _ _ _ w => (3, w);
     os_getpid := fun w => (70000, w);
     os_close := fun _ w => (0, w);
     format_fixed3 := fun _ => "0.250"%string |}.

(** * Proofs *)

(** ** Bytes and 16-bit values *)

Lemma byte_val_range (b : byte) : 0 <= byte_val b < 256.
Proof.
  unfold byte_val. pose proof (Byte.to_N_bounded b). lia.
Qed.

Lemma byte_val_byte_of (z : Z) : byte_val (byte_of z) = z mod 256.
Proof.
  unfold byte_of, byte_val, u8. change (2 ^ 8) with 256.
  pose proof (Z.mod_pos_bound z 256 ltac:(lia)) as Hr.
  destruct (Byte.of_N (Z.to_N (z mod 256))) as [b|] eqn:E.
  - apply Byte.to_of_N in E. rewrite E. lia.
  - apply Byte.of_N_None_iff in E. lia.
Qed.

Lemma byte_of_byte_val (b : byte) : byte_of (byte_val b) = b.
Proof.
  unfold byte_of, byte_val, u8. change (2 ^ 8) with 256.
  pose proof (Byte.to_N_bounded b).
  rewrite Z.mod_small by lia. rewrite N2Z.id, Byte.of_to_N. reflexivity.
Qed.

Lemma byte_val_inj (a b : byte) : byte_val a = byte_val b -> a = b.
Proof.
  intros H. rewrite <- (byte_of_byte_val a), <- (byte_of_byte_val b), H.
  reflexivity.
Qed.

Lemma land_shiftl_low (hi lo n : Z) :
  0 <= n -> 0 <= lo < 2 ^ n -> Z.land (Z.shiftl hi n) lo = 0.
Proof.
  intros Hn Hlo. apply Z.bits_inj'. intros i Hi.
  rewrite Z.land_spec, Z.bits_0.
  destruct (Z_lt_dec i n) as [Hlt|Hge].
  - rewrite Z.shiftl_spec_low by lia. reflexivity.
  - replace lo with (lo mod 2 ^ n) by (apply Z.mod_small; lia).
    rewrite Z.mod_pow2_bits_high by lia. apply andb_false_r.
Qed.

Lemma lor_shiftl_add (hi lo n : Z) :
  0 <= n -> 0 <= lo < 2 ^ n -> Z.lor (Z.shiftl hi n) lo = hi * 2 ^ n + lo.
Proof.
  intros Hn Hlo.
  rewrite <- Z.lxor_lor by (apply land_shiftl_low; assumption).
  rewrite <- Z.add_nocarry_lxor by (apply land_shiftl_low; assumption).
  rewrite Z.shiftl_mul_pow2 by assumption. reflexivity.
Qed.

Lemma land_255 (v : Z) : Z.land v 255 = v mod 256.
Proof. change 255 with (Z.ones 8). rewrite Z.land_ones by lia. reflexivity. Qed.

Lemma shiftr_8 (v : Z) : Z.shiftr v 8 = v / 256.
Proof. rewrite Z.shiftr_div_pow2 by lia. reflexivity. Qed.

Lemma bswap16_spec (v : Z) :
  0 <= v < 65536 -> bswap16 v = (v mod 256) * 256 + v / 256.
Proof.
  intros Hv. unfold bswap16. rewrite !land_255, shiftr_8.
  assert (0 <= v / 256 < 256)
    by (split; [apply Z.div_pos | apply Z.div_lt_upper_bound]; lia).
  rewrite (Z.mod_small (v / 256)) by lia.
  rewrite lor_shiftl_add by lia. reflexivity.
Qed.

Lemma bswap16_range (v : Z) : 0 <= v < 65536 -> 0 <= bswap16 v < 65536.
Proof.
  intros Hv. rewrite bswap16_spec by assumption.
  pose proof (Z.mod_pos_bound v 256 ltac:(lia)).
  assert (0 <= v / 256 < 256)
    by (split; [apply Z.div_pos | apply Z.div_lt_upper_bound]; lia).
  lia.
Qed.

Lemma bswap16_involutive (v : Z) : 0 <= v < 65536 -> bswap16 (bswap16 v) = v.
Proof.
  intros Hv. rewrite (bswap16_spec (bswap16 v)) by (apply bswap16_range; assumption).
  rewrite bswap16_spec by assumption.
  pose proof (Z.mod_pos_bound v 256 ltac:(lia)).
  assert (0 <= v / 256 < 256)
    by (split; [apply Z.div_pos | apply Z.div_lt_upper_bound]; lia).
  replace ((v mod 256 * 256 + v / 256) mod 256) with (v / 256)
    by (rewrite Z.add_comm, Z_mod_plus_full, Z.mod_small; lia).
  replace ((v mod 256 * 256 + v / 256) / 256) with (v mod 256)
    by (rewrite Z.add_comm, Z_div_plus_full, Z.div_small; lia).
  pose proof (Z.div_mod v 256 ltac:(lia)). lia.
Qed.

Lemma be16_range (b0 b1 : byte) : 0 <= be16 b0 b1 < 65536.
Proof.
  unfold be16. pose proof (byte_val_range b0). pose proof (byte_val_range b1). lia.
Qed.

Section HostFacts.

Variable host : endianness.

Lemma load16_range (b0 b1 : byte) : 0 <= load16 host b0 b1 < 65536.
Proof.
  pose proof (byte_val_range b0). pose proof (byte_val_range b1).
  unfold load16. destruct host.
  - rewrite Z.lor_comm, lor_shiftl_add by lia. lia.
  - rewrite lor_shiftl_add by lia. lia.
Qed.

(** Whatever the host, [ntohs] of a word read from memory is the
    big-endian value of its two bytes. *)
Lemma ntohs_load16 (b0 b1 : byte) : ntohs host (load16 host b0 b1) = be16 b0 b1.
Proof.
  pose proof (byte_val_range b0) as H0. pose proof (byte_val_range b1) as H1.
  unfold ntohs, load16, be16. destruct host.
  - rewrite Z.lor_comm, lor_shiftl_add by lia.
    change (2 ^ 8) with 256. rewrite bswap16_spec by lia.
    replace ((byte_val b1 * 256 + byte_val b0) mod 256) with (byte_val b0)
      by (rewrite Z.add_comm, Z_mod_plus_full, Z.mod_small; lia).
    replace ((byte_val b1 * 256 + byte_val b0) / 256) with (byte_val b1)
      by (rewrite Z.add_comm, Z_div_plus_full, Z.div_small; lia).
    reflexivity.
  - rewrite lor_shiftl_add by lia. reflexivity.
Qed.

(** Whatever the host, the memory image of [htons v] is [v] in network
    byte order. *)
Lemma store16_htons (v : Z) :
  0 <= v < 65536 ->
  store16 host (htons host v) = [byte_of (v / 256); byte_of (v mod 256)].
Proof.
  intros Hv. unfold store16, htons.
  pose proof (Z.mod_pos_bound v 256 ltac:(lia)).
  assert (0 <= v / 256 < 256)
    by (split; [apply Z.div_pos | apply Z.div_lt_upper_bound]; lia).
  destruct host.
  - rewrite land_255, shiftr_8, bswap16_spec by assumption.
    replace ((v mod 256 * 256 + v / 256) mod 256) with (v / 256)
      by (rewrite Z.add_comm, Z_mod_plus_full, Z.mod_small; lia).
    replace ((v mod 256 * 256 + v / 256) / 256) with (v mod 256)
      by (rewrite Z.add_comm, Z_div_plus_full, Z.div_small; lia).
    reflexivity.
  - rewrite land_255, shiftr_8. reflexivity.
Qed.

Lemma be16_wire (v : Z) :
  0 <= v < 65536 -> be16 (byte_of (v / 256)) (byte_of (v mod 256)) = v.
Proof.
  intros Hv. unfold be16. rewrite !byte_val_byte_of.
  assert (0 <= v / 256 < 256)
    by (split; [apply Z.div_pos | apply Z.div_lt_upper_bound]; lia).
  rewrite Z.mod_mod, (Z.mod_small (v / 256)) by lia.
  pose proof (Z.div_mod v 256 ltac:(lia)). lia.
Qed.

Lemma htons_range (v : Z) : 0 <= v < 65536 -> 0 <= htons host v < 65536.
Proof.
  intros Hv. unfold htons. destruct host; [apply bswap16_range|]; assumption.
Qed.

Lemma ntohs_htons (v : Z) : 0 <= v < 65536 -> ntohs host (htons host v) = v.
Proof.
  intros Hv. unfold ntohs, htons. destruct host; [apply bswap16_involutive; assumption | reflexivity].
Qed.

Lemma ntohs_inj (a b : Z) :
  0 <= a < 65536 -> 0 <= b < 65536 -> ntohs host a = ntohs host b -> a = b.
Proof.
  unfold ntohs. destruct host; [|auto].
  intros Ha Hb E. rewrite <- (bswap16_involutive a), <- (bswap16_involutive b), E by assumption.
  reflexivity.
Qed.

End HostFacts.

(** ** The carry fold *)

(** On an unsigned accumulator the loop computes the one's-complement
    residue: 0 stays 0, and a positive value is reduced to its
    representative in [1, 65535] modulo 65535. *)
Lemma fold_carry_spec (sum : Z) :
  0 <= sum ->
  fold_carry sum = if sum =? 0 then 0 else (sum - 1) mod 65535 + 1.
Proof.
  funelim (fold_carry sum); intros Hs.
  - (* one more iteration *)
    clear Heq.
    assert (Z.land sum 65535 + Z.shiftr sum 16 = sum mod 65536 + sum / 65536) as Hstep.
    { change 65535 with (Z.ones 16). rewrite Z.land_ones, Z.shiftr_div_pow2 by lia.
      reflexivity. }
    rewrite Z.shiftr_div_pow2 in Hcarry by lia. change (2 ^ 16) with 65536 in Hcarry.
    rewrite Hstep in *.
    pose proof (Z.div_mod sum 65536 ltac:(lia)) as Hdm.
    pose proof (Z.mod_pos_bound sum 65536 ltac:(lia)) as Hm.
    rewrite H by lia.
    destruct (Z.eqb_spec (sum mod 65536 + sum / 65536) 0) as [E|E]; [lia|].
    destruct (Z.eqb_spec sum 0) as [E0|E0]; [lia|].
    f_equal.
    replace (sum - 1) with (sum mod 65536 + sum / 65536 - 1 + (sum / 65536) * 65535) by lia.
    rewrite Z_mod_plus_full. reflexivity.
  - (* loop exit *)
    clear Heq.
    rewrite Z.shiftr_div_pow2 in Hdone by lia. change (2 ^ 16) with 65536 in Hdone.
    assert (sum < 65536).
    { destruct (Z_lt_dec sum 65536); [assumption|].
      exfalso. assert (1 <= sum / 65536) by (apply Z.div_le_lower_bound; lia). lia. }
    destruct (Z.eqb_spec sum 0) as [E0|E0]; [assumption|].
    rewrite Z.mod_small by lia. lia.
Qed.

Lemma fold_carry_range (sum : Z) : 0 <= sum -> 0 <= fold_carry sum < 65536.
Proof.
  intros Hs. rewrite fold_carry_spec by assumption.
  destruct (Z.eqb_spec sum 0); [lia|].
  pose proof (Z.mod_pos_bound (sum - 1) 65535 ltac:(lia)). lia.
Qed.

(** ** The word sum *)

Lemma list_pair_ind (A : Type) (P : list A -> Prop) :
  P [] -> (forall a, P [a]) ->
  (forall a b rest, P rest -> P (a :: b :: rest)) ->
  forall l, P l.
Proof.
  intros Hnil Hone Hstep.
  assert (forall l, P l /\ forall a, P (a :: l)) as H.
  { induction l as [|x l [IH1 IH2]]; split; auto. }
  intros l. apply H.
Qed.

Lemma u32_add_l (a b : Z) : u32 (u32 a + b) = u32 (a + b).
Proof. unfold u32. rewrite Zplus_mod_idemp_l. reflexivity. Qed.

Lemma u32_range (z : Z) : 0 <= u32 z < 2 ^ 32.
Proof. unfold u32. apply Z.mod_pos_bound. lia. Qed.

Section ChecksumFacts.

Variable host : endianness.

Lemma as_words_length (data : list byte) :
  List.length (as_words host data) = Nat.div2 (List.length data).
Proof.
  induction data as [| b | b0 b1 rest IH] using list_pair_ind; simpl; auto.
Qed.

Lemma sum_loop_total (ws : list Z) (a : Z) :
  fold_left (fun sum w => u32 (sum + ntohs host w)) ws (u32 a)
  = u32 (a + fold_right (fun w acc => ntohs host w + acc) 0 ws).
Proof.
  revert a. induction ws as [|w ws IH]; intros a; simpl.
  - f_equal. lia.
  - rewrite u32_add_l, IH. f_equal. lia.
Qed.

(** The words summed by the loop plus the odd trailing byte. *)
Lemma words_plus_tail (data : list byte) :
  let length := Z.of_nat (List.length data) in
  fold_right (fun w acc => ntohs host w + acc) 0 (as_words host data)
  + (if negb (length mod 2 =? 0)
     then Z.shiftl (byte_val (byte_at data (length - 1))) 8 else 0)
  = word_total data.
Proof.
  induction data as [| b | b0 b1 rest IH] using list_pair_ind.
  - reflexivity.
  - cbn -[Z.shiftl byte_val]. rewrite Z.shiftl_mul_pow2 by lia. reflexivity.
  - cbv zeta in *.
    change (as_words host (b0 :: b1 :: rest))
      with (load16 host b0 b1 :: as_words host rest).
    change (word_total (b0 :: b1 :: rest)) with (be16 b0 b1 + word_total rest).
    cbn [fold_right]. rewrite ntohs_load16, <- IH.
    replace (Z.of_nat (List.length (b0 :: b1 :: rest)))
      with (Z.of_nat (List.length rest) + 1 * 2) by (cbn [List.length]; lia).
    rewrite Z_mod_plus_full.
    destruct (Z.of_nat (List.length rest) mod 2 =? 0) eqn:E; cbn [negb]; [lia|].
    assert (List.length rest <> 0%nat).
    { intros E0. rewrite E0 in E. discriminate E. }
    unfold byte_at.
    replace (Z.to_nat (Z.of_nat (List.length rest) + 1 * 2 - 1))
      with (S (S (Z.to_nat (Z.of_nat (List.length rest) - 1)))) by lia.
    cbn [nth]. lia.
Qed.

(** The checksum is a function of the exact word sum only. *)
Lemma icmp_checksum_total (data : list byte) :
  icmp_checksum host data
  = htons host (u16 (u32 (Z.lnot (fold_carry (u32 (word_total data)))))).
Proof.
  assert (fold_left (fun sum w => u32 (sum + ntohs host w))
            (firstn (Z.to_nat (Z.of_nat (List.length data) / 2)) (as_words host data)) 0
          = u32 (fold_right (fun w acc => ntohs host w + acc) 0 (as_words host data)))
    as Hloop.
  { rewrite firstn_all2.
    - exact (sum_loop_total (as_words host data) 0).
    - rewrite as_words_length, Nat.div2_div.
      change 2 with (Z.of_nat 2). rewrite <- Nat2Z.inj_div, Nat2Z.id. apply le_n. }
  unfold icmp_checksum. cbv zeta. rewrite Hloop.
  rewrite <- words_plus_tail. cbv zeta.
  destruct (negb (Z.of_nat (List.length data) mod 2 =? 0)).
  - rewrite u32_add_l. reflexivity.
  - rewrite Z.add_0_r. reflexivity.
Qed.

End ChecksumFacts.

Lemma word_total_nonneg (data : list byte) : 0 <= word_total data.
Proof.
  induction data as [| b | b0 b1 rest IH] using list_pair_ind; cbn [word_total].
  - lia.
  - pose proof (byte_val_range b). lia.
  - pose proof (be16_range b0 b1). lia.
Qed.

(** [static_cast<uint16_t>(~sum)] of a folded sum is its 16-bit
    complement. *)
Lemma complement16 (f : Z) : 0 <= f < 65536 -> u16 (u32 (Z.lnot f)) = 65535 - f.
Proof.
  intros Hf. unfold u16, u32, Z.lnot.
  replace (Z.pred (- f)) with (2 ^ 32 - 1 - f + (-1) * 2 ^ 32) by lia.
  rewrite Z_mod_plus_full, (Z.mod_small (2 ^ 32 - 1 - f)) by lia.
  replace (2 ^ 32 - 1 - f) with (65535 - f + 65535 * 2 ^ 16) by lia.
  rewrite Z_mod_plus_full, Z.mod_small by lia. reflexivity.
Qed.

(** Adding the complement of the folded sum to the accumulator brings
    the folded sum to 0xFFFF, also when the 32-bit accumulator wrapped
    around on the way. *)
Lemma fold_carry_verifies (A : Z) :
  fold_carry (u32 (A + (65535 - fold_carry (u32 A)))) = 65535.
Proof.
  rewrite <- u32_add_l.
  pose proof (u32_range A) as Hr. set (S1 := u32 A) in *.
  rewrite (fold_carry_spec S1) by lia.
  destruct (Z.eqb_spec S1 0) as [E|E].
  - rewrite E. reflexivity.
  - pose proof (Z.div_mod (S1 - 1) 65535 ltac:(lia)) as Hdm.
    pose proof (Z.mod_pos_bound (S1 - 1) 65535 ltac:(lia)) as Hm.
    assert (0 <= (S1 - 1) / 65535 <= 65536) as Hq.
    { split; [apply Z.div_pos; lia|].
      apply Z.lt_succ_r. apply Z.div_lt_upper_bound; lia. }
    replace (S1 + (65535 - ((S1 - 1) mod 65535 + 1)))
      with (65535 * ((S1 - 1) / 65535 + 1)) by lia.
    unfold u32. rewrite Z.mod_small by lia.
    rewrite fold_carry_spec by lia.
    destruct (Z.eqb_spec (65535 * ((S1 - 1) / 65535 + 1)) 0) as [E0|E0]; [lia|].
    replace (65535 * ((S1 - 1) / 65535 + 1) - 1)
      with (65534 + ((S1 - 1) / 65535) * 65535) by lia.
    rewrite Z_mod_plus_full. reflexivity.
Qed.

(** * Checksum engine: stated properties *)

(** C1. Self-verification of the Internet checksum: for every buffer [B]
    of at least 4 bytes, of even or odd length, if [c] is the checksum of
    [B] with bytes 2-3 zeroed, the checksum of [B] with bytes 2-3 replaced
    by the memory image of [c] is 0.  This holds on either byte order and
    for every length, wrap-around of the 32-bit accumulator included. *)
Theorem icmp_checksum_self_verification (host : endianness) (B : list byte) :
  (4 <= List.length B)%nat ->
  let c := icmp_checksum host (memcpy B 2 [x00; x00]) in
  icmp_checksum host (memcpy B 2 (store16 host c)) = 0.
Proof.
  intros Hlen.
  destruct B as [|b0 [|b1 [|c0 [|c1 rest]]]]; cbn [List.length] in Hlen; try lia.
  cbv zeta. clear Hlen.
  assert (forall x y, memcpy (b0 :: b1 :: c0 :: c1 :: rest) 2 [x; y]
                      = b0 :: b1 :: x :: y :: rest) as Hcpy by reflexivity.
  rewrite (Hcpy x00 x00), (icmp_checksum_total host (b0 :: b1 :: x00 :: x00 :: rest)).
  set (f1 := fold_carry (u32 (word_total (b0 :: b1 :: x00 :: x00 :: rest)))).
  assert (0 <= f1 < 65536) as Hf1 by (apply fold_carry_range, u32_range).
  rewrite complement16 by assumption.
  rewrite store16_htons by lia.
  rewrite Hcpy, icmp_checksum_total.
  cbn [word_total]. rewrite be16_wire by lia.
  replace (be16 b0 b1 + (65535 - f1 + word_total rest))
    with (be16 b0 b1 + word_total rest + (65535 - f1)) by lia.
  assert (f1 = fold_carry (u32 (be16 b0 b1 + word_total rest))) as Ef1.
  { unfold f1. cbn [word_total]. change (be16 x00 x00) with 0.
    rewrite Z.add_0_l. reflexivity. }
  rewrite Ef1 at 1. rewrite fold_carry_verifies.
  destruct host; reflexivity.
Qed.

(** C7. The checksum of the empty buffer is defined (the function is
    total: no word is read and the carry loop exits at once) and is the
    one's complement of 0, that is 0xFFFF. *)
Theorem icmp_checksum_empty (host : endianness) :
  icmp_checksum host [] = u16 (Z.lnot 0) /\ icmp_checksum host [] = 65535.
Proof.
  destruct host; split; reflexivity.
Qed.

(** * Packet codec: stated properties *)

(** C6. For a non-empty buffer the IP header length is 4 times the low
    nibble of the first byte; a first byte 0x45 gives 20. *)
Theorem get_ip_header_length_low_nibble (b : byte) (rest : list byte) :
  get_ip_header_length (b :: rest) = 4 * (byte_val b mod 16)
  /\ get_ip_header_length (x45 :: rest) = 20.
Proof.
  split; [|reflexivity].
  unfold get_ip_header_length, byte_at, u8. cbn [Z.to_nat nth].
  change 15 with (Z.ones 4). rewrite Z.land_ones by lia.
  pose proof (Z.mod_pos_bound (byte_val b) (2 ^ 4) ltac:(lia)).
  rewrite (Z.mod_small (byte_val b mod 2 ^ 4)) by lia.
  change (2 ^ 4) with 16. lia.
Qed.

Lemma validate_icmp_response_true (host : endianness) (h : icmphdr) (id seq : Z) :
  validate_icmp_response host h id seq = true
  <-> byte_val (hdr_type h) = ICMP_ECHOREPLY /\ byte_val (hdr_code h) = 0
      /\ ntohs host (echo_id h) = id /\ ntohs host (echo_sequence h) = seq.
Proof.
  unfold validate_icmp_response.
  destruct (Z.eqb_spec (byte_val (hdr_type h)) ICMP_ECHOREPLY) as [Et|Et];
    destruct (Z.eqb_spec (byte_val (hdr_code h)) 0) as [Ec|Ec]; cbn [negb orb];
    try (split; [discriminate | tauto]).
  rewrite andb_true_iff, !Z.eqb_eq. tauto.
Qed.

(** C3. [validate_icmp_response] accepts exactly the Echo Replies
    (type 0, code 0) whose byte-order-corrected identifier and sequence
    are the expected ones; from an accepted header, changing the type,
    the code, the identifier or the sequence alone makes it rejected. *)
Theorem validate_icmp_response_spec (host : endianness) (h : icmphdr) (id seq : Z) :
  wf_icmphdr h ->
  (validate_icmp_response host h id seq = true
   <-> byte_val (hdr_type h) = 0 /\ byte_val (hdr_code h) = 0
       /\ ntohs host (echo_id h) = id /\ ntohs host (echo_sequence h) = seq)
  /\ (validate_icmp_response host h id seq = true ->
      (forall t, t <> hdr_type h ->
                 validate_icmp_response host (with_type h t) id seq = false)
      /\ (forall c, c <> hdr_code h ->
                    validate_icmp_response host (with_code h c) id seq = false)
      /\ (forall i, 0 <= i < 65536 -> i <> echo_id h ->
                    validate_icmp_response host (with_id h i) id seq = false)
      /\ (forall s, 0 <= s < 65536 -> s <> echo_sequence h ->
                    validate_icmp_response host (with_sequence h s) id seq = false)).
Proof.
  intros (_ & Hid & Hseq). split; [apply validate_icmp_response_true|].
  intros Hok. apply validate_icmp_response_true in Hok.
  destruct Hok as (Ht & Hc & Ei & Es).
  assert (forall h', validate_icmp_response host h' id seq = true ->
                     byte_val (hdr_type h') = byte_val (hdr_type h)
                     /\ byte_val (hdr_code h') = byte_val (hdr_code h)
                     /\ ntohs host (echo_id h') = ntohs host (echo_id h)
                     /\ ntohs host (echo_sequence h') = ntohs host (echo_sequence h))
    as Hsame.
  { intros h' Hx. apply validate_icmp_response_true in Hx.
    unfold ICMP_ECHOREPLY in *. intuition congruence. }
  repeat split.
  - intros t Hne. apply not_true_is_false. intros Hx.
    apply Hne, byte_val_inj. apply (Hsame _ Hx).
  - intros c Hne. apply not_true_is_false. intros Hx.
    apply Hne, byte_val_inj. apply (Hsame _ Hx).
  - intros i Hr Hne. apply not_true_is_false. intros Hx.
    apply Hne, (ntohs_inj host); try assumption. apply (Hsame _ Hx).
  - intros s Hr Hne. apply not_true_is_false. intros Hx.
    apply Hne, (ntohs_inj host); try assumption. apply (Hsame _ Hx).
Qed.

(** C5. Two headers that differ only in the checksum field get the same
    verdict against any expected identifier and sequence: the checksum of
    a reply is never read. *)
Theorem validate_icmp_response_ignores_checksum
  (host : endianness) (h1 h2 : icmphdr) (id seq : Z) :
  hdr_type h1 = hdr_type h2 -> hdr_code h1 = hdr_code h2 ->
  echo_id h1 = echo_id h2 -> echo_sequence h1 = echo_sequence h2 ->
  validate_icmp_response host h1 id seq = validate_icmp_response host h2 id seq.
Proof.
  intros Et Ec Ei Es. unfold validate_icmp_response.
  rewrite Et, Ec, Ei, Es. reflexivity.
Qed.

Lemma list_byte_of_string_length (s : string) :
  List.length (list_byte_of_string s) = String.length s.
Proof.
  unfold list_byte_of_string. rewrite length_map.
  induction s as [|a s IH]; cbn; [reflexivity | f_equal; exact IH].
Qed.

Lemma store16_two (host : endianness) (v : Z) :
  exists k0 k1, store16 host v = [k0; k1].
Proof. unfold store16. destruct host; eauto. Qed.

Lemma skipn_repeat_all (A : Type) (x : A) (n : nat) : skipn n (repeat x n) = [].
Proof. apply skipn_all2. rewrite repeat_length. apply le_n. Qed.

(** The packet built by the encoder, byte by byte. *)
Lemma create_icmp_echo_request_shape
  (host : endianness) (identifier sequence : Z) (payload : string) :
  0 <= identifier < 65536 -> 0 <= sequence < 65536 ->
  exists k0 k1,
    create_icmp_echo_request host identifier sequence payload
    = x08 :: x00 :: k0 :: k1
        :: byte_of (identifier / 256) :: byte_of (identifier mod 256)
        :: byte_of (sequence / 256) :: byte_of (sequence mod 256)
        :: list_byte_of_string payload.
Proof.
  intros Hid Hseq. unfold create_icmp_echo_request. cbv zeta.
  unfold icmphdr_bytes.
  cbn [hdr_type hdr_code hdr_checksum echo_id echo_sequence].
  rewrite !store16_htons by assumption.
  assert (store16 host 0 = [x00; x00]) as -> by (destruct host; reflexivity).
  change (byte_of ICMP_ECHO) with x08. change (byte_of 0) with x00.
  set (hdr := [x08; x00] ++ [x00; x00]
                ++ [byte_of (identifier / 256); byte_of (identifier mod 256)]
                ++ [byte_of (sequence / 256); byte_of (sequence mod 256)]).
  set (pl := list_byte_of_string payload).
  assert (List.length pl = String.length payload) as Hpl
    by apply list_byte_of_string_length.
  assert (memcpy (repeat x00 (Z.to_nat sizeof_icmphdr + String.length payload)) 0 hdr
          = hdr ++ repeat x00 (String.length payload)) as ->.
  { reflexivity. }
  assert ((if negb (String.length payload =? 0)%nat
           then memcpy (hdr ++ repeat x00 (String.length payload))
                       (Z.to_nat sizeof_icmphdr) pl
           else hdr ++ repeat x00 (String.length payload))
          = hdr ++ pl) as ->.
  { destruct (Nat.eqb_spec (String.length payload) 0) as [E|E]; cbn [negb].
    - rewrite E in *. destruct pl; [reflexivity | discriminate Hpl].
    - unfold memcpy. change (Z.to_nat sizeof_icmphdr) with (List.length hdr).
      rewrite firstn_app, firstn_all, Nat.sub_diag, firstn_O, app_nil_r.
      rewrite skipn_app, skipn_all2 by (rewrite Hpl; lia).
      replace (List.length hdr + List.length pl - List.length hdr)%nat
        with (String.length payload) by lia.
      rewrite skipn_repeat_all, !app_nil_r. reflexivity. }
  destruct (store16_two host (icmp_checksum host (hdr ++ pl))) as (k0 & k1 & ->).
  exists k0, k1. reflexivity.
Qed.

(** C4. For every 16-bit identifier and sequence and every payload the
    encoder returns 8 + |payload| bytes: type 8, code 0, the checksum
    field, the identifier and the sequence in network byte order, then
    the payload unchanged; reading bytes 4-5 and 6-7 back with byte-order
    correction gives the identifier and the sequence. *)
Theorem create_icmp_echo_request_wire
  (host : endianness) (identifier sequence : Z) (payload : string) :
  0 <= identifier < 65536 -> 0 <= sequence < 65536 ->
  let packet := create_icmp_echo_request host identifier sequence payload in
  List.length packet = (8 + String.length payload)%nat
  /\ byte_val (byte_at packet 0) = 8
  /\ byte_val (byte_at packet 1) = 0
  /\ be16 (byte_at packet 4) (byte_at packet 5) = identifier
  /\ be16 (byte_at packet 6) (byte_at packet 7) = sequence
  /\ skipn 8 packet = list_byte_of_string payload
  /\ ntohs host (echo_id (icmphdr_at host packet 0)) = identifier
  /\ ntohs host (echo_sequence (icmphdr_at host packet 0)) = sequence.
Proof.
  intros Hid Hseq packet.
  destruct (create_icmp_echo_request_shape host identifier sequence payload Hid Hseq)
    as (k0 & k1 & E).
  subst packet. rewrite E. clear E.
  unfold icmphdr_at, byte_at.
  repeat match goal with
         | |- context [Z.to_nat ?z] =>
             let n := eval compute in (Z.to_nat z) in change (Z.to_nat z) with n
         end.
  cbn [nth echo_id echo_sequence skipn List.length].
  rewrite list_byte_of_string_length, !ntohs_load16, !be16_wire by assumption.
  repeat split; reflexivity.
Qed.

(** * Exchange coordinator *)

Section CoordinatorFacts.

Variable host : endianness.
Variable W : Type.
Variable sys : os W.
Variables (sock : Z) (dest : sockaddr_in) (ident seqno : Z).

(** Every run of [send_ping] ends through one of the seven exits. *)
Lemma send_ping_path (w : W) :
  ping_path host sock dest ident seqno
    (fst (run_send_ping host sys sock dest ident seqno w))
    (snd (run_send_ping host sys sock dest ident seqno w)).
Proof.
  unfold run_send_ping, send_ping, bind, ret, now, sendto, select, recvfrom,
    strerror_errno, cout, cerr, syscall, emit.
  destruct (os_now sys w) as [t0 w1].
  destruct (os_sendto sys sock _ 0 dest w1) as [sent w2].
  destruct (Z.leb_spec sent 0) as [Hsent|Hsent].
  { destruct (os_strerror sys w2) as [msg w3]. cbn.
    apply (PathSendFailed host sock dest ident seqno t0 sent msg Hsent). }
  destruct (os_select sys (sock + 1) [sock] _ w2) as [ready w3].
  destruct (Z.leb_spec ready 0) as [Hready|Hready].
  { destruct (Z.eqb_spec ready 0) as [E|E].
    - subst ready. cbn.
      apply (PathTimedOut host sock dest ident seqno t0 sent Hsent).
    - destruct (os_strerror sys w3) as [msg w4]. cbn.
      apply (PathSelectError host sock dest ident seqno t0 sent ready msg Hsent).
      lia. }
  destruct (os_recvfrom sys sock BUFFER_SIZE 0 w3) as [[[received buffer] from] w4].
  destruct (Z.leb_spec received 0) as [Hrecv|Hrecv].
  { destruct (os_strerror sys w4) as [msg w5]. cbn.
    apply (PathRecvFailed host sock dest ident seqno t0 sent ready received buffer
             from msg Hsent Hready Hrecv). }
  destruct (os_now sys w4) as [t1 w5].
  destruct (received <? to_ssize (u64 (get_ip_header_length buffer + sizeof_icmphdr)))
    eqn:Htrunc.
  { cbn.
    apply (PathTruncated host sock dest ident seqno t0 sent ready received buffer
             from t1 Hsent Hready Hrecv Htrunc). }
  destruct (validate_icmp_response host
              (icmphdr_at host buffer (get_ip_header_length buffer)) ident seqno)
    eqn:Hval.
  - cbn.
    apply (PathValidated host sock dest ident seqno t0 sent ready received buffer
             from t1 Hsent Hready Hrecv Htrunc Hval).
  - cbn.
    apply (PathMismatch host sock dest ident seqno t0 sent ready received buffer
             from t1 Hsent Hready Hrecv Htrunc Hval).
Qed.

(** *** Facts about the exits *)

Lemma get_ip_header_length_range (buffer : list byte) :
  0 <= get_ip_header_length buffer <= 60.
Proof.
  unfold get_ip_header_length, u8.
  change 15 with (Z.ones 4). rewrite Z.land_ones by lia.
  pose proof (Z.mod_pos_bound (byte_val (byte_at buffer 0)) (2 ^ 4) ltac:(lia)) as Hn.
  rewrite (Z.mod_small _ (2 ^ 8)) by lia. lia.
Qed.

Lemma truncated_false (received : Z) (buffer : list byte) :
  truncated received buffer = false ->
  get_ip_header_length buffer + 8 <= received.
Proof.
  unfold truncated, to_ssize, u64, sizeof_icmphdr. intros H.
  apply Z.ltb_ge in H.
  pose proof (get_ip_header_length_range buffer) as Hr.
  rewrite (Z.mod_small (get_ip_header_length buffer + 8)) in H by lia.
  rewrite Z.mod_small in H by lia. lia.
Qed.

Lemma ping_path_failure (res : PingResult) (tr : list call) :
  ping_path host sock dest ident seqno res tr ->
  failure_path host ident seqno tr = true ->
  res = failed ident seqno.
Proof.
  intros P Hfail. destruct P; try reflexivity.
  exfalso. unfold failure_path in Hfail.
  cbn [existsb app sent_calls wait_call recv_call failed_call] in Hfail.
  repeat match goal with
         | H : 0 < ?x |- _ => apply Z.leb_gt in H; rewrite H in Hfail
         | H : truncated _ _ = false |- _ => rewrite H in Hfail; clear H
         | H : matches _ _ _ _ = true |- _ => rewrite H in Hfail; clear H
         end.
  discriminate Hfail.
Qed.

Lemma ping_path_success (res : PingResult) (tr : list call) :
  ping_path host sock dest ident seqno res tr ->
  (success res = false <-> failure_path host ident seqno tr = true).
Proof.
  intros P. split.
  - intros Hs. destruct P; try discriminate Hs; unfold failure_path; cbn;
      repeat match goal with
             | H : ?x <= 0 |- _ => apply Z.leb_le in H; rewrite H
             | H : ?x < 0 |- _ =>
                 let H' := fresh in
                 assert ((x <=? 0) = true) as H' by (apply Z.leb_le; lia);
                 rewrite H'; clear H
             | H : truncated _ _ = true |- _ => rewrite H
             | H : matches _ _ _ _ = false |- _ => rewrite H
             end;
      cbn; rewrite ?orb_true_r; reflexivity.
  - intros Hf. rewrite (ping_path_failure res tr P Hf). reflexivity.
Qed.

Lemma ping_path_single_receive (res : PingResult) (tr : list call) :
  ping_path host sock dest ident seqno res tr ->
  (List.length (filter is_recvfrom tr) <= 1)%nat
  /\ forall c, In c tr -> rejected_reply host ident seqno c = true ->
       success res = false
       /\ exists pre post, tr = pre ++ c :: post /\ forallb is_passive post = true.
Proof.
  intros P. split.
  - destruct P; cbn; lia.
  - intros c Hin Hrej.
    destruct P; cbn in Hin;
      repeat match goal with
             | H : _ \/ _ |- _ => destruct H as [H|H]
             | H : False |- _ => destruct H
             end;
      subst c; try discriminate Hrej; cbn in Hrej.
    + split; [reflexivity|].
      eexists (sent_calls host sock dest ident seqno t0 sent ++ [_]), _.
      split; reflexivity.
    + split; [reflexivity|].
      eexists (sent_calls host sock dest ident seqno t0 sent ++ [_]), _.
      split; reflexivity.
    + split; [reflexivity|].
      eexists (sent_calls host sock dest ident seqno t0 sent ++ [_]), _.
      split; reflexivity.
    + exfalso.
      match goal with H : matches _ _ _ _ = true |- _ => rewrite H in Hrej end.
      discriminate Hrej.
Qed.

Lemma ping_path_success_fields (res : PingResult) (tr : list call) :
  ping_path host sock dest ident seqno res tr ->
  Forall recvfrom_contract tr ->
  success res = true ->
  exists received buffer from,
    In (CallRecvfrom sock BUFFER_SIZE 0 received buffer from) tr
    /\ bytes_received res = received - get_ip_header_length buffer - 8
    /\ 0 <= bytes_received res
    /\ 0 <= ttl res <= 255
    /\ sequence res = seqno /\ identifier res = ident.
Proof.
  intros P Hos Hs. destruct P; try discriminate Hs.
  exists received, buffer, from.
  assert (received <= BUFFER_SIZE) as Hlen.
  { rewrite Forall_forall in Hos.
    apply (Hos (recv_call sock received buffer from)). cbn. tauto. }
  unfold BUFFER_SIZE in Hlen.
  match goal with H : truncated _ _ = false |- _ => apply truncated_false in H end.
  pose proof (get_ip_header_length_range buffer) as Hr.
  pose proof (byte_val_range (byte_at buffer 8)) as Hb.
  cbn [bytes_received ttl sequence identifier].
  assert (to_int (u64 (u64 (u64 received - get_ip_header_length buffer) - sizeof_icmphdr))
          = received - get_ip_header_length buffer - 8) as ->.
  { unfold to_int, u64, sizeof_icmphdr.
    rewrite (Z.mod_small received) by lia.
    rewrite (Z.mod_small (received - get_ip_header_length buffer)) by lia.
    rewrite (Z.mod_small (received - get_ip_header_length buffer - 8)) by lia.
    rewrite Z.mod_small by lia. lia. }
  repeat split; try lia.
  cbn. tauto.
Qed.

End CoordinatorFacts.

(** ** Exchange coordinator: stated properties *)

(** C2, as the code has it.  On every failure path of [send_ping] (send
    failure, timeout, wait-mechanism error, receive failure, truncated
    datagram, validation mismatch) the result has [success = false],
    [rtt_ms = 0], an empty source address, [bytes_received = 0] and
    [ttl = 0], while [sequence] and [identifier] are the arguments of the
    call, assigned before anything else is done. *)
Theorem send_ping_failure_result
  (host : endianness) (W : Type) (sys : os W)
  (sock : Z) (dest : sockaddr_in) (ident seqno : Z) (w : W) :
  failure_path host ident seqno (snd (run_send_ping host sys sock dest ident seqno w))
  = true ->
  fst (run_send_ping host sys sock dest ident seqno w)
  = {| success := false; rtt_ms := 0%Q; from_addr := EmptyString;
       bytes_received := 0; ttl := 0;
       sequence := seqno; identifier := ident |}.
Proof.
  intros Hfail.
  exact (ping_path_failure host sock dest ident seqno _ _
           (send_ping_path host W sys sock dest ident seqno w) Hfail).
Qed.

(** The failure paths are exactly the runs that return [success = false]. *)
Lemma send_ping_failure_iff
  (host : endianness) (W : Type) (sys : os W)
  (sock : Z) (dest : sockaddr_in) (ident seqno : Z) (w : W) :
  success (fst (run_send_ping host sys sock dest ident seqno w)) = false
  <-> failure_path host ident seqno
        (snd (run_send_ping host sys sock dest ident seqno w)) = true.
Proof.
  apply (ping_path_success host sock dest ident seqno).
  apply send_ping_path.
Qed.

(** C8. A call of [send_ping] performs at most one receive; when the
    datagram it received is not the expected reply the call returns
    [success = false], and after that receive it only reads the clock and
    writes its message: no second receive, no further wait. *)
Theorem send_ping_single_receive
  (host : endianness) (W : Type) (sys : os W)
  (sock : Z) (dest : sockaddr_in) (ident seqno : Z) (w : W) :
  (List.length
     (filter is_recvfrom (snd (run_send_ping host sys sock dest ident seqno w)))
   <= 1)%nat
  /\ forall c,
      In c (snd (run_send_ping host sys sock dest ident seqno w)) ->
      rejected_reply host ident seqno c = true ->
      success (fst (run_send_ping host sys sock dest ident seqno w)) = false
      /\ exists pre post,
          snd (run_send_ping host sys sock dest ident seqno w) = pre ++ c :: post
          /\ forallb is_passive post = true.
Proof.
  apply (ping_path_single_receive host sock dest ident seqno).
  apply send_ping_path.
Qed.

(** C10. When [send_ping] returns [success = true] (the operating system
    honouring the contract of [recvfrom]), the payload count is the
    number of bytes received minus the IP header length minus 8 and is
    not negative, the TTL lies in [0, 255], and [sequence] and
    [identifier] are the arguments of the call. *)
Theorem send_ping_success_fields
  (host : endianness) (W : Type) (sys : os W)
  (sock : Z) (dest : sockaddr_in) (ident seqno : Z) (w : W) :
  Forall recvfrom_contract (snd (run_send_ping host sys sock dest ident seqno w)) ->
  success (fst (run_send_ping host sys sock dest ident seqno w)) = true ->
  exists received buffer from,
    In (CallRecvfrom sock BUFFER_SIZE 0 received buffer from)
       (snd (run_send_ping host sys sock dest ident seqno w))
    /\ bytes_received (fst (run_send_ping host sys sock dest ident seqno w))
       = received - get_ip_header_length buffer - 8
    /\ 0 <= bytes_received (fst (run_send_ping host sys sock dest ident seqno w))
    /\ 0 <= ttl (fst (run_send_ping host sys sock dest ident seqno w)) <= 255
    /\ sequence (fst (run_send_ping host sys sock dest ident seqno w)) = seqno
    /\ identifier (fst (run_send_ping host sys sock dest ident seqno w)) = ident.
Proof.
  apply (ping_path_success_fields host sock dest ident seqno).
  apply send_ping_path.
Qed.

(** X17. The timeout exit: when [select] answers 0 the call returns the
    failure result at once; the wait was asked for [TIMEOUT_SECONDS]
    seconds and nothing is received. *)
Lemma send_ping_timeout_exit
  (host : endianness) (W : Type) (sys : os W)
  (sock : Z) (dest : sockaddr_in) (ident seqno : Z) (w : W) :
  In (wait_call sock 0) (snd (run_send_ping host sys sock dest ident seqno w)) ->
  fst (run_send_ping host sys sock dest ident seqno w) = failed ident seqno
  /\ exists t0 sent,
      snd (run_send_ping host sys sock dest ident seqno w)
      = sent_calls host sock dest ident seqno t0 sent
          ++ [wait_call sock 0;
              CallCout ("Timeout para sequência " ++ to_string seqno)].
Proof.
  generalize (send_ping_path host W sys sock dest ident seqno w).
  generalize (fst (run_send_ping host sys sock dest ident seqno w)).
  generalize (snd (run_send_ping host sys sock dest ident seqno w)).
  intros tr res P Hin.
  destruct P; cbn in Hin;
    repeat match goal with
           | H : _ \/ _ |- _ => destruct H as [H|H]
           | H : False |- _ => destruct H
           | H : _ = wait_call _ _ |- _ => inversion H; clear H
           end;
    try lia.
  split; [reflexivity|]. eauto.
Qed.

(** A header read from a buffer is well formed on any host. *)
Lemma icmphdr_at_wf (host : endianness) (buffer : list byte) (off : Z) :
  wf_icmphdr (icmphdr_at host buffer off).
Proof.
  unfold wf_icmphdr, icmphdr_at. cbn [hdr_checksum echo_id echo_sequence].
  repeat split; apply load16_range.
Qed.

(** * Instances *)

(** The end-to-end scenario: identifier 777, sequence 5, a responder
    that echoes the request with TTL 64. *)
Example loopback_end_to_end :
  fst (run_send_ping LittleEndian (loopback_os LittleEndian) 3 localhost 777 5 (0, []))
  = {| success := true; rtt_ms := Qmake 250 1000; from_addr := "127.0.0.1";
       bytes_received := 14; ttl := 64; sequence := 5; identifier := 777 |}.
Proof. vm_compute. reflexivity. Qed.

Lemma icmp_checksum_self_verification_witness :
  (4 <= List.length odd_buffer)%nat
  /\ icmp_checksum LittleEndian
       (memcpy odd_buffer 2
          (store16 LittleEndian
             (icmp_checksum LittleEndian (memcpy odd_buffer 2 [x00; x00])))) = 0.
Proof.
  assert (4 <= List.length odd_buffer)%nat as H by (cbn; lia).
  split; [exact H|].
  exact (icmp_checksum_self_verification LittleEndian odd_buffer H).
Defined.

Lemma validate_icmp_response_spec_witness :
  wf_icmphdr crafted_reply
  /\ validate_icmp_response LittleEndian crafted_reply 1234 1 = true
  /\ validate_icmp_response LittleEndian (with_type crafted_reply x08) 1234 1 = false
  /\ validate_icmp_response LittleEndian (with_code crafted_reply x01) 1234 1 = false
  /\ validate_icmp_response LittleEndian (with_id crafted_reply 0) 1234 1 = false
  /\ validate_icmp_response LittleEndian (with_sequence crafted_reply 0) 1234 1 = false.
Proof.
  assert (wf_icmphdr crafted_reply) as Hwf.
  { unfold wf_icmphdr.
    change (hdr_checksum crafted_reply) with 11515.
    change (echo_id crafted_reply) with 53764.
    change (echo_sequence crafted_reply) with 256. lia. }
  destruct (validate_icmp_response_spec LittleEndian crafted_reply 1234 1 Hwf)
    as [Hiff Hflip].
  assert (validate_icmp_response LittleEndian crafted_reply 1234 1 = true) as Hok.
  { apply Hiff. cbn. repeat split; reflexivity. }
  destruct (Hflip Hok) as (Ht & Hc & Hi & Hs).
  split; [exact Hwf|]. split; [exact Hok|].
  split; [apply Ht; cbn; discriminate|].
  split; [apply Hc; cbn; discriminate|].
  split; [apply Hi | apply Hs];
    solve [lia | vm_compute; intros H; discriminate H].
Defined.

Lemma create_icmp_echo_request_wire_witness :
  0 <= 1234 < 65536 /\ 0 <= 1 < 65536
  /\ ntohs LittleEndian
       (echo_id (icmphdr_at LittleEndian
                   (create_icmp_echo_request LittleEndian 1234 1 "PING_PAYLOAD_1") 0))
     = 1234
  /\ ntohs LittleEndian
       (echo_sequence (icmphdr_at LittleEndian
                   (create_icmp_echo_request LittleEndian 1234 1 "PING_PAYLOAD_1") 0))
     = 1.
Proof.
  assert (0 <= 1234 < 65536) as Hid by lia.
  assert (0 <= 1 < 65536) as Hseq by lia.
  pose proof (create_icmp_echo_request_wire LittleEndian 1234 1 "PING_PAYLOAD_1"
                Hid Hseq) as H.
  cbv zeta in H. destruct H as (_ & _ & _ & _ & _ & _ & Ei & Es).
  split; [exact Hid|]. split; [exact Hseq|]. split; [exact Ei | exact Es].
Defined.

Lemma validate_icmp_response_ignores_checksum_witness :
  hdr_checksum crafted_reply <> hdr_checksum crafted_reply_no_checksum
  /\ validate_icmp_response LittleEndian crafted_reply 1234 1
     = validate_icmp_response LittleEndian crafted_reply_no_checksum 1234 1.
Proof.
  split; [vm_compute; intros H; discriminate H|].
  apply (validate_icmp_response_ignores_checksum
           LittleEndian crafted_reply crafted_reply_no_checksum 1234 1);
    reflexivity.
Defined.

Lemma send_ping_failure_result_witness :
  failure_path LittleEndian 1234 1
    (snd (run_send_ping LittleEndian silent_os 3 localhost 1234 1 0)) = true
  /\ fst (run_send_ping LittleEndian silent_os 3 localhost 1234 1 0)
     = {| success := false; rtt_ms := 0%Q; from_addr := EmptyString;
          bytes_received := 0; ttl := 0; sequence := 1; identifier := 1234 |}.
Proof.
  assert (failure_path LittleEndian 1234 1
            (snd (run_send_ping LittleEndian silent_os 3 localhost 1234 1 0)) = true)
    as H by (vm_compute; reflexivity).
  split; [exact H|].
  exact (send_ping_failure_result LittleEndian Z silent_os 3 localhost 1234 1 0 H).
Defined.

(** C2 as stated fails: after a timeout the result still carries the
    sequence 1 and the identifier 1234 of the call, not zeros. *)
Lemma send_ping_failure_keeps_arguments :
  failure_path LittleEndian 1234 1
    (snd (run_send_ping LittleEndian silent_os 3 localhost 1234 1 0)) = true
  /\ success (fst (run_send_ping LittleEndian silent_os 3 localhost 1234 1 0)) = false
  /\ sequence (fst (run_send_ping LittleEndian silent_os 3 localhost 1234 1 0)) <> 0
  /\ identifier (fst (run_send_ping LittleEndian silent_os 3 localhost 1234 1 0)) <> 0.
Proof.
  vm_compute. repeat split; try reflexivity; intros H; discriminate H.
Qed.

Lemma send_ping_single_receive_witness :
  let c := CallRecvfrom 3 1500 0 28 (stray_datagram ++ repeat x00 1472) localhost in
  In c (snd (run_send_ping LittleEndian stranger_os 3 localhost 1234 1 0))
  /\ rejected_reply LittleEndian 1234 1 c = true
  /\ success (fst (run_send_ping LittleEndian stranger_os 3 localhost 1234 1 0)) = false
  /\ exists pre post,
      snd (run_send_ping LittleEndian stranger_os 3 localhost 1234 1 0)
      = pre ++ c :: post
      /\ forallb is_passive post = true.
Proof.
  intros c.
  assert (In c (snd (run_send_ping LittleEndian stranger_os 3 localhost 1234 1 0)))
    as Hin by (right; right; right; left; reflexivity).
  assert (rejected_reply LittleEndian 1234 1 c = true) as Hrej by reflexivity.
  split; [exact Hin|]. split; [exact Hrej|].
  exact (proj2 (send_ping_single_receive LittleEndian Z stranger_os 3 localhost 1234 1 0)
           c Hin Hrej).
Defined.

Lemma send_ping_success_fields_witness :
  Forall recvfrom_contract
    (snd (run_send_ping LittleEndian (loopback_os LittleEndian) 3 localhost 777 5 (0, [])))
  /\ success
       (fst (run_send_ping LittleEndian (loopback_os LittleEndian) 3 localhost 777 5 (0, [])))
     = true
  /\ 0 <= bytes_received
            (fst (run_send_ping LittleEndian (loopback_os LittleEndian) 3 localhost 777 5 (0, [])))
  /\ sequence
       (fst (run_send_ping LittleEndian (loopback_os LittleEndian) 3 localhost 777 5 (0, [])))
     = 5
  /\ identifier
       (fst (run_send_ping LittleEndian (loopback_os LittleEndian) 3 localhost 777 5 (0, [])))
     = 777.
Proof.
  assert (Forall recvfrom_contract
            (snd (run_send_ping LittleEndian (loopback_os LittleEndian)
                    3 localhost 777 5 (0, [])))) as Hos.
  { repeat constructor; vm_compute; intros H; discriminate H. }
  assert (success
            (fst (run_send_ping LittleEndian (loopback_os LittleEndian)
                    3 localhost 777 5 (0, []))) = true) as Hs by reflexivity.
  destruct (send_ping_success_fields LittleEndian _ (loopback_os LittleEndian)
              3 localhost 777 5 (0, []) Hos Hs)
    as (received & buffer & from & _ & _ & Hb & _ & Hseq & Hid).
  split; [exact Hos|]. split; [exact Hs|].
  split; [exact Hb|]. split; [exact Hseq | exact Hid].
Defined.

(** * Further properties of the checksum engine *)

(** The bytes a host writes to memory for a checksum it computed: the
    16-bit complement of the folded big-endian word sum, high byte
    first. *)
Lemma icmp_checksum_wire (host : endianness) (data : list byte) :
  store16 host (icmp_checksum host data)
  = [byte_of ((65535 - fold_carry (u32 (word_total data))) / 256);
     byte_of ((65535 - fold_carry (u32 (word_total data))) mod 256)].
Proof.
  rewrite icmp_checksum_total.
  pose proof (fold_carry_range (u32 (word_total data))
                (proj1 (u32_range (word_total data)))) as Hf.
  rewrite complement16 by assumption.
  apply store16_htons. lia.
Qed.

Lemma htons_zero_iff (host : endianness) (v : Z) :
  0 <= v < 65536 -> (htons host v = 0 <-> v = 0).
Proof.
  intros Hv. split.
  - intros E. rewrite <- (ntohs_htons host v Hv), E. destruct host; reflexivity.
  - intros ->. destruct host; reflexivity.
Qed.

Lemma word_total_snoc_zero (data : list byte) :
  word_total (data ++ [x00]) = word_total data.
Proof.
  induction data as [| b | b0 b1 rest IH] using list_pair_ind.
  - reflexivity.
  - cbn [app word_total]. unfold be16. change (byte_val x00) with 0. lia.
  - cbn [app word_total]. rewrite IH. reflexivity.
Qed.

Lemma word_total_app_even (pre rest : list byte) :
  Nat.even (List.length pre) = true ->
  word_total (pre ++ rest) = word_total pre + word_total rest.
Proof.
  induction pre as [| b | b0 b1 pre IH] using list_pair_ind; intros Hev.
  - reflexivity.
  - discriminate Hev.
  - cbn [app word_total]. rewrite IH by exact Hev. lia.
Qed.

(** X1. The carry fold on a 32-bit accumulator ends with a 16-bit value
    that is congruent to the accumulator modulo 65535, and that is 0
    only for the accumulator 0. *)
Theorem fold_carry_residue (sum : Z) :
  0 <= sum < 2 ^ 32 ->
  0 <= fold_carry sum < 65536
  /\ fold_carry sum mod 65535 = sum mod 65535
  /\ (fold_carry sum = 0 <-> sum = 0).
Proof.
  intros Hs. split; [apply fold_carry_range; lia|].
  rewrite fold_carry_spec by lia.
  destruct (Z.eqb_spec sum 0) as [E|E].
  - subst sum. split; [reflexivity | tauto].
  - pose proof (Z.mod_pos_bound (sum - 1) 65535 ltac:(lia)) as Hm.
    split; [|split; intros; lia].
    pose proof (Z.div_mod (sum - 1) 65535 ltac:(lia)) as Hdm.
    rewrite <- (Z_mod_plus_full ((sum - 1) mod 65535 + 1) ((sum - 1) / 65535) 65535).
    f_equal. lia.
Qed.

Lemma fold_carry_residue_witness :
  0 <= 4294967295 < 2 ^ 32
  /\ fold_carry 4294967295 mod 65535 = 4294967295 mod 65535
  /\ 0 <= fold_carry 4294967295 < 65536.
Proof.
  assert (0 <= 4294967295 < 2 ^ 32) as H by lia.
  destruct (fold_carry_residue 4294967295 H) as (Hr & Hm & _).
  split; [exact H|]. split; [exact Hm | exact Hr].
Defined.

(** X2. The two bytes stored for the checksum of a buffer are the same
    on a little-endian and on a big-endian host. *)
Theorem icmp_checksum_wire_host_independent (data : list byte) :
  store16 LittleEndian (icmp_checksum LittleEndian data)
  = store16 BigEndian (icmp_checksum BigEndian data).
Proof.
  rewrite !icmp_checksum_wire. reflexivity.
Qed.

(** X3. A buffer verifies (its checksum is 0) exactly when its 32-bit
    word sum is a nonzero multiple of 65535; in particular a buffer whose
    words sum to 0 does not verify. *)
Theorem icmp_checksum_zero_iff (host : endianness) (data : list byte) :
  icmp_checksum host data = 0
  <-> u32 (word_total data) <> 0 /\ u32 (word_total data) mod 65535 = 0.
Proof.
  rewrite icmp_checksum_total.
  pose proof (u32_range (word_total data)) as Hr.
  set (S1 := u32 (word_total data)) in *.
  pose proof (fold_carry_range S1 (proj1 Hr)) as Hf.
  rewrite complement16 by assumption.
  rewrite htons_zero_iff by lia.
  rewrite fold_carry_spec in * by lia.
  destruct (Z.eqb_spec S1 0) as [E|E].
  - split; [lia | tauto].
  - pose proof (Z.div_mod (S1 - 1) 65535 ltac:(lia)) as H1.
    pose proof (Z.mod_pos_bound (S1 - 1) 65535 ltac:(lia)) as H2.
    pose proof (Z.div_mod S1 65535 ltac:(lia)) as H3.
    pose proof (Z.mod_pos_bound S1 65535 ltac:(lia)) as H4.
    split.
    + intros Hz. split; [assumption|]. lia.
    + intros [_ Hz]. lia.
Qed.

(** X4. Trailing zero bytes never change the checksum: an odd last byte
    counts as the high byte of a word padded with zero, and zero words
    add nothing. *)
Theorem icmp_checksum_zero_padding (host : endianness) (data : list byte) (n : nat) :
  icmp_checksum host (data ++ repeat x00 n) = icmp_checksum host data.
Proof.
  assert (word_total (data ++ repeat x00 n) = word_total data) as Hw.
  { revert data. induction n as [|n IH]; intros data.
    - cbn [repeat]. rewrite app_nil_r. reflexivity.
    - cbn [repeat]. change (x00 :: repeat x00 n) with ([x00] ++ repeat x00 n).
      rewrite app_assoc, IH. apply word_total_snoc_zero. }
  rewrite !icmp_checksum_total, Hw. reflexivity.
Qed.

(** X5. Error detection: in a buffer that verifies, replacing one aligned
    16-bit word by a different value makes the buffer fail to verify,
    unless the change is between 0x0000 and 0xFFFF. *)
Theorem icmp_checksum_detects_word_change
  (host : endianness) (pre post : list byte) (a0 a1 b0 b1 : byte) :
  Nat.even (List.length pre) = true ->
  be16 a0 a1 <> be16 b0 b1 ->
  ~ (be16 a0 a1 = 0 /\ be16 b0 b1 = 65535) ->
  ~ (be16 a0 a1 = 65535 /\ be16 b0 b1 = 0) ->
  icmp_checksum host (pre ++ a0 :: a1 :: post) = 0 ->
  icmp_checksum host (pre ++ b0 :: b1 :: post) <> 0.
Proof.
  intros Hev Hne Hlo Hhi Hok Hbad.
  apply icmp_checksum_zero_iff in Hok. apply icmp_checksum_zero_iff in Hbad.
  rewrite word_total_app_even in Hok, Hbad by assumption.
  cbn [word_total] in Hok, Hbad.
  pose proof (be16_range a0 a1) as Ha. pose proof (be16_range b0 b1) as Hb.
  set (a := be16 a0 a1) in *. set (b := be16 b0 b1) in *.
  set (T := word_total pre + (a + word_total post)) in *.
  replace (word_total pre + (b + word_total post)) with (T + (b - a)) in Hbad
    by (unfold T; lia).
  rewrite <- u32_add_l in Hbad.
  pose proof (u32_range T) as Hr. set (S1 := u32 T) in *.
  destruct Hok as [Hnz Hmul]. destruct Hbad as [Hnz' Hmul'].
  unfold u32 in Hnz', Hmul'.
  pose proof (Z.div_mod S1 65535 ltac:(lia)) as H1. rewrite Hmul in H1.
  assert (65535 <= S1) as Hge.
  { assert (0 < S1 / 65535) by (destruct (Z_lt_dec 0 (S1 / 65535)); lia). lia. }
  destruct (Z_lt_dec (S1 + (b - a)) (2 ^ 32)) as [Hlt|Hwrap].
  - rewrite (Z.mod_small (S1 + (b - a)) (2 ^ 32)) in Hnz', Hmul' by lia.
    pose proof (Z.div_mod (S1 + (b - a)) 65535 ltac:(lia)) as H2.
    rewrite Hmul' in H2. lia.
  - replace (S1 + (b - a)) with (S1 + (b - a) - 2 ^ 32 + 1 * 2 ^ 32) in Hnz', Hmul' by lia.
    rewrite Z_mod_plus_full in Hnz', Hmul'.
    rewrite (Z.mod_small (S1 + (b - a) - 2 ^ 32) (2 ^ 32)) in Hnz', Hmul' by lia.
    rewrite Z.mod_small in Hmul' by lia. lia.
Qed.

(** * Further properties of the packet codec *)

(** The packet built by the encoder: the header with a zero checksum
    field followed by the payload, then the checksum of that buffer
    stored at offset 2. *)
Lemma create_icmp_echo_request_checksummed
  (host : endianness) (identifier sequence : Z) (payload : string) :
  0 <= identifier < 65536 -> 0 <= sequence < 65536 ->
  create_icmp_echo_request host identifier sequence payload
  = x08 :: x00
      :: store16 host
           (icmp_checksum host
              (x08 :: x00 :: x00 :: x00
                 :: byte_of (identifier / 256) :: byte_of (identifier mod 256)
                 :: byte_of (sequence / 256) :: byte_of (sequence mod 256)
                 :: list_byte_of_string payload))
      ++ byte_of (identifier / 256) :: byte_of (identifier mod 256)
      :: byte_of (sequence / 256) :: byte_of (sequence mod 256)
      :: list_byte_of_string payload.
Proof.
  intros Hid Hseq. unfold create_icmp_echo_request. cbv zeta.
  unfold icmphdr_bytes.
  cbn [hdr_type hdr_code hdr_checksum echo_id echo_sequence].
  rewrite !store16_htons by assumption.
  assert (store16 host 0 = [x00; x00]) as -> by (destruct host; reflexivity).
  change (byte_of ICMP_ECHO) with x08. change (byte_of 0) with x00.
  set (hdr := [x08; x00] ++ [x00; x00]
                ++ [byte_of (identifier / 256); byte_of (identifier mod 256)]
                ++ [byte_of (sequence / 256); byte_of (sequence mod 256)]).
  set (pl := list_byte_of_string payload).
  assert (List.length pl = String.length payload) as Hpl
    by apply list_byte_of_string_length.
  assert (memcpy (repeat x00 (Z.to_nat sizeof_icmphdr + String.length payload)) 0 hdr
          = hdr ++ repeat x00 (String.length payload)) as -> by reflexivity.
  assert ((if negb (String.length payload =? 0)%nat
           then memcpy (hdr ++ repeat x00 (String.length payload))
                       (Z.to_nat sizeof_icmphdr) pl
           else hdr ++ repeat x00 (String.length payload))
          = hdr ++ pl) as ->.
  { destruct (Nat.eqb_spec (String.length payload) 0) as [E|E]; cbn [negb].
    - rewrite E in *. destruct pl; [reflexivity | discriminate Hpl].
    - unfold memcpy. change (Z.to_nat sizeof_icmphdr) with (List.length hdr).
      rewrite firstn_app, firstn_all, Nat.sub_diag, firstn_O, app_nil_r.
      rewrite skipn_app, skipn_all2 by (rewrite Hpl; lia).
      replace (List.length hdr + List.length pl - List.length hdr)%nat
        with (String.length payload) by lia.
      rewrite skipn_repeat_all, !app_nil_r. reflexivity. }
  change (hdr ++ pl)
    with (x08 :: x00 :: x00 :: x00
            :: byte_of (identifier / 256) :: byte_of (identifier mod 256)
            :: byte_of (sequence / 256) :: byte_of (sequence mod 256) :: pl).
  destruct (store16_two host
              (icmp_checksum host
                 (x08 :: x00 :: x00 :: x00
                    :: byte_of (identifier / 256) :: byte_of (identifier mod 256)
                    :: byte_of (sequence / 256) :: byte_of (sequence mod 256) :: pl)))
    as (k0 & k1 & ->).
  reflexivity.
Qed.

(** Storing the checksum of a buffer with a zero checksum field into
    that field gives a buffer that verifies. *)
Lemma icmp_checksum_patched (host : endianness) (b0 b1 : byte) (rest : list byte) :
  icmp_checksum host
    (b0 :: b1 :: store16 host (icmp_checksum host (b0 :: b1 :: x00 :: x00 :: rest))
        ++ rest) = 0.
Proof.
  rewrite icmp_checksum_wire.
  set (f1 := fold_carry (u32 (word_total (b0 :: b1 :: x00 :: x00 :: rest)))).
  assert (0 <= f1 < 65536) as Hf1 by (apply fold_carry_range, u32_range).
  cbn [app]. rewrite icmp_checksum_total.
  cbn [word_total]. rewrite be16_wire by lia.
  replace (be16 b0 b1 + (65535 - f1 + word_total rest))
    with (be16 b0 b1 + word_total rest + (65535 - f1)) by lia.
  assert (f1 = fold_carry (u32 (be16 b0 b1 + word_total rest))) as Ef1.
  { unfold f1. cbn [word_total]. change (be16 x00 x00) with 0.
    rewrite Z.add_0_l. reflexivity. }
  rewrite Ef1 at 1. rewrite fold_carry_verifies.
  destruct host; reflexivity.
Qed.

(** X6. Every packet built by [create_icmp_echo_request] verifies: its
    checksum, computed over the whole packet, is 0. *)
Theorem create_icmp_echo_request_verifies
  (host : endianness) (identifier sequence : Z) (payload : string) :
  0 <= identifier < 65536 -> 0 <= sequence < 65536 ->
  icmp_checksum host (create_icmp_echo_request host identifier sequence payload) = 0.
Proof.
  intros Hid Hseq.
  rewrite create_icmp_echo_request_checksummed by assumption.
  apply icmp_checksum_patched.
Qed.

(** X7. The bytes of the packet do not depend on the byte order of the
    host that builds it. *)
Theorem create_icmp_echo_request_host_independent
  (identifier sequence : Z) (payload : string) :
  0 <= identifier < 65536 -> 0 <= sequence < 65536 ->
  create_icmp_echo_request LittleEndian identifier sequence payload
  = create_icmp_echo_request BigEndian identifier sequence payload.
Proof.
  intros Hid Hseq.
  rewrite !create_icmp_echo_request_checksummed by assumption.
  rewrite !icmp_checksum_wire. reflexivity.
Qed.

(** X8. Request and reply.  The packet built for (identifier, sequence)
    is never accepted by [validate_icmp_response], whatever is expected;
    the same packet with its type byte set to Echo Reply is accepted for
    exactly the expected pair (identifier, sequence). *)
Theorem echo_request_reply_validation
  (host : endianness) (identifier sequence : Z) (payload : string)
  (expected_id expected_seq : Z) :
  0 <= identifier < 65536 -> 0 <= sequence < 65536 ->
  let packet := create_icmp_echo_request host identifier sequence payload in
  validate_icmp_response host (icmphdr_at host packet 0) expected_id expected_seq
  = false
  /\ (validate_icmp_response host (icmphdr_at host (memcpy packet 0 [x00]) 0)
        expected_id expected_seq = true
      <-> expected_id = identifier /\ expected_seq = sequence).
Proof.
  intros Hid Hseq packet.
  destruct (create_icmp_echo_request_shape host identifier sequence payload Hid Hseq)
    as (k0 & k1 & E).
  subst packet. rewrite E. clear E. split.
  - reflexivity.
  - rewrite validate_icmp_response_true.
    unfold memcpy, icmphdr_at, byte_at.
    cbn [firstn skipn List.length Nat.add app].
    repeat match goal with
           | |- context [Z.to_nat ?z] =>
               let n := eval compute in (Z.to_nat z) in change (Z.to_nat z) with n
           end.
    cbn [nth hdr_type hdr_code echo_id echo_sequence].
    rewrite !ntohs_load16, !be16_wire by assumption.
    change (byte_val x00) with 0. unfold ICMP_ECHOREPLY.
    intuition congruence.
Qed.

(** * Further properties of the exchange coordinator *)

Lemma byte_at_app_r (pre l : list byte) (k : Z) :
  0 <= k -> byte_at (pre ++ l) (Z.of_nat (List.length pre) + k) = byte_at l k.
Proof.
  intros Hk. unfold byte_at.
  replace (Z.to_nat (Z.of_nat (List.length pre) + k))
    with (List.length pre + Z.to_nat k)%nat by lia.
  apply app_nth2_plus.
Qed.

Lemma get_ip_header_length_app (b : byte) (pre l : list byte) :
  get_ip_header_length ((b :: pre) ++ l) = get_ip_header_length (b :: pre).
Proof. reflexivity. Qed.

Section CoordinatorMore.

Variable host : endianness.
Variable W : Type.
Variable sys : os W.
Variables (sock : Z) (dest : sockaddr_in) (ident seqno : Z).

Lemma ping_path_one_request (res : PingResult) (tr : list call) :
  ping_path host sock dest ident seqno res tr ->
  exists t0 sent rest,
    tr = CallNow t0
           :: CallSendto sock
                (create_icmp_echo_request host ident seqno
                   ("PING_PAYLOAD_" ++ to_string seqno)) 0 dest sent
           :: rest
    /\ forallb (fun c => negb (is_sendto c)) rest = true.
Proof.
  intros P. destruct P; exists t0, sent; eexists; split; reflexivity.
Qed.

Lemma ping_path_order (res : PingResult) (tr : list call) :
  ping_path host sock dest ident seqno res tr ->
  (forall nfds fds tv ready,
      In (CallSelect nfds fds tv ready) tr ->
      nfds = sock + 1 /\ fds = [sock]
      /\ tv = {| tv_sec := TIMEOUT_SECONDS; tv_usec := 0 |}
      /\ exists t0 sent,
          0 < sent
          /\ firstn 3 tr
             = sent_calls host sock dest ident seqno t0 sent ++ [wait_call sock ready])
  /\ (forall s len flags received buffer from,
         In (CallRecvfrom s len flags received buffer from) tr ->
         s = sock /\ len = BUFFER_SIZE /\ flags = 0
         /\ exists t0 sent ready,
             0 < sent /\ 0 < ready
             /\ firstn 4 tr
                = sent_calls host sock dest ident seqno t0 sent
                    ++ [wait_call sock ready; recv_call sock received buffer from]).
Proof.
  intros P. split.
  - intros nfds fds tv ready Hin.
    destruct P; cbn in Hin;
      repeat match goal with
             | H : _ \/ _ |- _ => destruct H as [H|H]
             | H : False |- _ => destruct H
             | H : _ = CallSelect _ _ _ _ |- _ => inversion H; subst; clear H
             end;
      (split; [reflexivity|]; split; [reflexivity|]; split; [reflexivity|]);
      exists t0, sent; (split; [assumption | reflexivity]).
  - intros s len flags received' buffer' from' Hin.
    destruct P; cbn in Hin;
      repeat match goal with
             | H : _ \/ _ |- _ => destruct H as [H|H]
             | H : False |- _ => destruct H
             | H : _ = CallRecvfrom _ _ _ _ _ _ |- _ => inversion H; subst; clear H
             end;
      (split; [reflexivity|]; split; [reflexivity|]; split; [reflexivity|]);
      exists t0, sent, ready; (split; [assumption|]; split; [assumption | reflexivity]).
Qed.

Lemma ping_path_reads_inside (res : PingResult) (tr : list call) :
  ping_path host sock dest ident seqno res tr ->
  success res = true ->
  exists received buffer from,
    In (CallRecvfrom sock BUFFER_SIZE 0 received buffer from) tr
    /\ 0 <= get_ip_header_length buffer
    /\ get_ip_header_length buffer + sizeof_icmphdr <= received
    /\ get_ip_header_length buffer + sizeof_icmphdr <= 68
    /\ (0 < get_ip_header_length buffer -> 8 < received).
Proof.
  intros P Hs. destruct P; try discriminate Hs.
  exists received, buffer, from.
  match goal with H : truncated _ _ = false |- _ => apply truncated_false in H end.
  pose proof (get_ip_header_length_range buffer) as Hr.
  unfold sizeof_icmphdr.
  split; [cbn; tauto|]. repeat split; lia.
Qed.

End CoordinatorMore.


(** X10. Every call of [send_ping] first reads the clock and then sends
    exactly one datagram: the Echo Request for its identifier and
    sequence with the payload [PING_PAYLOAD_<sequence>], to the given
    destination with flags 0.  Nothing else is ever sent. *)
Theorem send_ping_sends_one_request
  (host : endianness) (W : Type) (sys : os W)
  (sock : Z) (dest : sockaddr_in) (ident seqno : Z) (w : W) :
  exists t0 sent rest,
    snd (run_send_ping host sys sock dest ident seqno w)
    = CallNow t0
        :: CallSendto sock
             (create_icmp_echo_request host ident seqno
                ("PING_PAYLOAD_" ++ to_string seqno)) 0 dest sent
        :: rest
    /\ forallb (fun c => negb (is_sendto c)) rest = true.
Proof.
  apply (ping_path_one_request host sock dest ident seqno
           (fst (run_send_ping host sys sock dest ident seqno w))).
  apply send_ping_path.
Qed.

(** X11. Order of the calls.  [send_ping] waits only after a send that
    returned a positive count, always on the one socket and for
    [TIMEOUT_SECONDS] seconds; it receives only after a wait that
    returned a positive count, always on the same socket and for at most
    [BUFFER_SIZE] bytes, the size of its buffer. *)
Theorem send_ping_call_order
  (host : endianness) (W : Type) (sys : os W)
  (sock : Z) (dest : sockaddr_in) (ident seqno : Z) (w : W) :
  (forall nfds fds tv ready,
      In (CallSelect nfds fds tv ready)
         (snd (run_send_ping host sys sock dest ident seqno w)) ->
      nfds = sock + 1 /\ fds = [sock]
      /\ tv = {| tv_sec := TIMEOUT_SECONDS; tv_usec := 0 |}
      /\ exists t0 sent,
          0 < sent
          /\ firstn 3 (snd (run_send_ping host sys sock dest ident seqno w))
             = sent_calls host sock dest ident seqno t0 sent ++ [wait_call sock ready])
  /\ (forall s len flags received buffer from,
         In (CallRecvfrom s len flags received buffer from)
            (snd (run_send_ping host sys sock dest ident seqno w)) ->
         s = sock /\ len = BUFFER_SIZE /\ flags = 0
         /\ exists t0 sent ready,
             0 < sent /\ 0 < ready
             /\ firstn 4 (snd (run_send_ping host sys sock dest ident seqno w))
                = sent_calls host sock dest ident seqno t0 sent
                    ++ [wait_call sock ready; recv_call sock received buffer from]).
Proof.
  apply (ping_path_order host sock dest ident seqno
           (fst (run_send_ping host sys sock dest ident seqno w))).
  apply send_ping_path.
Qed.

(** X12. When [send_ping] succeeds, the ICMP header it validated lies
    inside the bytes received and inside the first 68 bytes of the
    buffer; the TTL byte at offset 8 lies inside the bytes received
    whenever the IP header length read from the datagram is not 0. *)
Theorem send_ping_reads_inside_datagram
  (host : endianness) (W : Type) (sys : os W)
  (sock : Z) (dest : sockaddr_in) (ident seqno : Z) (w : W) :
  success (fst (run_send_ping host sys sock dest ident seqno w)) = true ->
  exists received buffer from,
    In (CallRecvfrom sock BUFFER_SIZE 0 received buffer from)
       (snd (run_send_ping host sys sock dest ident seqno w))
    /\ 0 <= get_ip_header_length buffer
    /\ get_ip_header_length buffer + sizeof_icmphdr <= received
    /\ get_ip_header_length buffer + sizeof_icmphdr <= 68
    /\ (0 < get_ip_header_length buffer -> 8 < received).
Proof.
  apply (ping_path_reads_inside host sock dest ident seqno).
  apply send_ping_path.
Qed.

Lemma icmphdr_at_app (host : endianness) (pre l : list byte) :
  icmphdr_at host (pre ++ l) (Z.of_nat (List.length pre)) = icmphdr_at host l 0.
Proof.
  unfold icmphdr_at.
  rewrite <- (Z.add_0_r (Z.of_nat (List.length pre))) at 1.
  rewrite !byte_at_app_r by lia. reflexivity.
Qed.

(** The payload count of line 187, computed in [size_t] and converted to
    [int], is exact for a datagram that passed the length guard and fits
    the buffer. *)
Lemma payload_count (received ihl : Z) :
  0 <= ihl -> ihl + 8 <= received -> received <= 1500 ->
  to_int (u64 (u64 (u64 received - ihl) - sizeof_icmphdr)) = received - ihl - 8.
Proof.
  intros Hi Hlo Hhi. unfold to_int, u64, sizeof_icmphdr.
  rewrite (Z.mod_small received) by lia.
  rewrite (Z.mod_small (received - ihl)) by lia.
  rewrite (Z.mod_small (received - ihl - 8)) by lia.
  rewrite Z.mod_small by lia. lia.
Qed.

(** An Echo Reply that carries the identifier, sequence and payload of
    the request, with any checksum bytes, behind an IP header whose
    length field agrees with its length. *)
Lemma echoed_reply_matches
  (host : endianness) (ident seqno : Z) (payload : string)
  (iphdr rest : list byte) (k0 k1 : byte) :
  0 <= ident < 65536 -> 0 <= seqno < 65536 ->
  validate_icmp_response host
    (icmphdr_at host
       (iphdr ++ x00 :: x00 :: k0 :: k1
          :: skipn 4 (create_icmp_echo_request host ident seqno payload) ++ rest)
       (Z.of_nat (List.length iphdr)))
    ident seqno = true.
Proof.
  intros Hid Hseq. rewrite icmphdr_at_app.
  destruct (create_icmp_echo_request_shape host ident seqno payload Hid Hseq)
    as (c0 & c1 & ->).
  apply validate_icmp_response_true.
  unfold icmphdr_at, byte_at. cbn [skipn app].
  repeat match goal with
         | |- context [Z.to_nat ?z] =>
             let n := eval compute in (Z.to_nat z) in change (Z.to_nat z) with n
         end.
  cbn [nth hdr_type hdr_code echo_id echo_sequence].
  rewrite !ntohs_load16, !be16_wire by assumption.
  repeat split; reflexivity.
Qed.

(** X13. The reply to one's own request is accepted.  If the datagram
    received is an IP header (whose length field agrees with its length)
    followed by an Echo Reply carrying the identifier, sequence and
    payload of the request, with any checksum, then [send_ping] succeeds
    and reports the payload length of the request, byte 8 of the IP
    header as TTL and the sender address in dotted decimal. *)
Theorem send_ping_accepts_echo
  (host : endianness) (W : Type) (sys : os W)
  (sock : Z) (dest : sockaddr_in) (ident seqno : Z) (w : W)
  (b : byte) (iphdr rest : list byte) (k0 k1 : byte)
  (received : Z) (from : sockaddr_in) :
  0 <= ident < 65536 -> 0 <= seqno < 65536 ->
  In (CallRecvfrom sock BUFFER_SIZE 0 received
        ((b :: iphdr) ++ x00 :: x00 :: k0 :: k1
           :: skipn 4 (create_icmp_echo_request host ident seqno
                         ("PING_PAYLOAD_" ++ to_string seqno)) ++ rest)
        from)
     (snd (run_send_ping host sys sock dest ident seqno w)) ->
  get_ip_header_length (b :: iphdr) = Z.of_nat (List.length (b :: iphdr)) ->
  (8 < List.length (b :: iphdr))%nat ->
  received
  = Z.of_nat (List.length (b :: iphdr)) + 8
    + Z.of_nat (String.length ("PING_PAYLOAD_" ++ to_string seqno)) ->
  received <= BUFFER_SIZE ->
  success (fst (run_send_ping host sys sock dest ident seqno w)) = true
  /\ bytes_received (fst (run_send_ping host sys sock dest ident seqno w))
     = Z.of_nat (String.length ("PING_PAYLOAD_" ++ to_string seqno))
  /\ ttl (fst (run_send_ping host sys sock dest ident seqno w))
     = byte_val (byte_at (b :: iphdr) 8)
  /\ from_addr (fst (run_send_ping host sys sock dest ident seqno w))
     = inet_ntop (sin_addr from).
Proof.
  intros Hid Hseq Hin Hihl Hlong Hrecv Hcap.
  generalize (send_ping_path host W sys sock dest ident seqno w), Hin.
  generalize (fst (run_send_ping host sys sock dest ident seqno w)).
  generalize (snd (run_send_ping host sys sock dest ident seqno w)).
  clear Hin. intros tr res P Hin.
  set (payload := ("PING_PAYLOAD_" ++ to_string seqno)%string) in *.
  set (buffer := (b :: iphdr) ++ x00 :: x00 :: k0 :: k1
                   :: skipn 4 (create_icmp_echo_request host ident seqno payload)
                   ++ rest) in *.
  assert (get_ip_header_length buffer = Z.of_nat (List.length (b :: iphdr))) as Hlen.
  { unfold buffer. rewrite get_ip_header_length_app. exact Hihl. }
  pose proof (get_ip_header_length_range buffer) as Hr.
  assert (truncated received buffer = false) as Htr.
  { unfold truncated, to_ssize, u64, sizeof_icmphdr. apply Z.ltb_ge.
    rewrite (Z.mod_small (get_ip_header_length buffer + 8)) by lia.
    rewrite Z.mod_small by lia. lia. }
  assert (matches host ident seqno buffer = true) as Hm.
  { unfold matches. rewrite Hlen. unfold buffer.
    apply echoed_reply_matches; assumption. }
  assert (byte_at buffer 8 = byte_at (b :: iphdr) 8) as Httl.
  { unfold buffer, byte_at. change (Z.to_nat 8) with 8%nat.
    apply app_nth1. exact Hlong. }
  unfold BUFFER_SIZE in Hcap.
  set (n := Z.of_nat (List.length (b :: iphdr))) in *.
  set (m := Z.of_nat (String.length payload)) in *.
  assert (0 <= n) as Hn by (unfold n; lia).
  assert (0 <= m) as Hm0 by (unfold m; lia).
  clearbody buffer n m. clear Hihl Hlong.
  destruct P; cbn in Hin;
    repeat match goal with
           | H : _ \/ _ |- _ => destruct H as [H|H]
           | H : False |- _ => destruct H
           | H : _ = CallRecvfrom _ _ _ _ _ _ |- _ => inversion H; subst; clear H
           end;
    try lia; try congruence.
  cbn [success bytes_received ttl from_addr].
  split; [reflexivity|]. split; [|split; [rewrite Httl; reflexivity | reflexivity]].
  rewrite payload_count by lia. lia.
Qed.

(** The request of an exchange verifies. *)
Lemma icmp_checksum_patched_request
  (host : endianness) (identifier : Z) :
  0 <= identifier < 65536 ->
  icmp_checksum host
    (create_icmp_echo_request host identifier 1 "PING_PAYLOAD_1") = 0.
Proof.
  intros Hid.
  rewrite create_icmp_echo_request_checksummed by (assumption || lia).
  apply icmp_checksum_patched.
Qed.

(** * The program entry point *)

Lemma in_map_Base (c : call) (tr : list call) : In (Base c) (map Base tr) <-> In c tr.
Proof.
  rewrite in_map_iff. split.
  - intros (x & E & Hin). inversion E. subst. exact Hin.
  - intros Hin. exists c. split; [reflexivity | exact Hin].
Qed.

Lemma no_close_in_base (tr : list call) :
  forallb (fun c => negb (is_close c)) (map Base tr) = true.
Proof. induction tr as [|c tr IH]; [reflexivity | exact IH]. Qed.

Lemma not_in_map_Base (x : main_call) (tr : list call) :
  (forall c, x <> Base c) -> ~ In x (map Base tr).
Proof.
  intros Hx Hin. apply in_map_iff in Hin. destruct Hin as (c & E & _).
  apply (Hx c). symmetry. exact E.
Qed.

Lemma land_65535 (pid : Z) : u16 (Z.land pid 65535) = pid mod 65536.
Proof.
  unfold u16. change 65535 with (Z.ones 16). rewrite Z.land_ones by lia.
  change (2 ^ 16) with 65536. apply Z.mod_mod. lia.
Qed.

Section MainFacts.

Variable host : endianness.
Variable W : Type.
Variable proc : process W.

(** Every execution of [main] ends through one of its four exits. *)
Lemma run_main_exit (argv : list string) (w : W) :
  main_exit host proc argv
    (fst (run_main host proc argv w)) (snd (run_main host proc argv w)).
Proof.
  unfold run_main, main, mbind, mret, main_cerr, main_cout, main_strerror,
    main_inet_pton, main_socket, main_getpid, main_close, msyscall, lift,
    cout, cerr, emit.
  destruct (Z.eqb_spec (Z.of_nat (List.length argv)) 2) as [Hargc|Hargc]; cbn [negb].
  2:{ cbn. apply ExitUsage. lia. }
  assert (List.length argv = 2%nat) as Hlen by lia.
  destruct (lib_inet_pton proc AF_INET (arg argv 1)) as [r addr] eqn:Hpton.
  destruct (Z.eqb_spec r 1) as [Hr|Hr]; cbn [negb].
  2:{ cbn. apply (ExitBadAddress host proc argv r addr Hlen Hpton Hr). }
  subst r.
  destruct (os_socket proc AF_INET SOCK_RAW IPPROTO_ICMP w) as [sock w1].
  destruct (Z.ltb_spec sock 0) as [Hsock|Hsock].
  { unfold strerror_errno, syscall.
    destruct (os_strerror (kernel proc) w1) as [msg w2]. cbn.
    apply (ExitNoSocket host proc argv addr sock msg Hlen Hpton Hsock). }
  destruct (os_getpid proc w1) as [shown_pid w2]. cbv beta iota zeta.
  destruct (os_getpid proc w2) as [pid w3]. cbv beta iota zeta.
  pose proof (send_ping_path host W (kernel proc) sock
                {| sin_family := AF_INET; sin_port := 0; sin_addr := addr |}
                (u16 (Z.land pid 65535)) DEFAULT_SEQUENCE w3) as P.
  unfold run_send_ping in P.
  destruct (send_ping host (kernel proc) sock
              {| sin_family := AF_INET; sin_port := 0; sin_addr := addr |}
              (u16 (Z.land pid 65535)) DEFAULT_SEQUENCE (w3, []))
    as [result [w4 tr]].
  cbn [fst snd] in P. cbv beta iota zeta.
  pose proof (ExitPing host proc argv addr sock shown_pid pid result tr) as E.
  destruct (success result); cbv beta iota zeta;
    destruct (os_close proc sock w4) as [closed w5]; cbn [fst snd map];
    specialize (E closed Hlen Hpton Hsock P);
    rewrite <- !app_assoc; cbn [app] in *; exact E.
Qed.

Lemma main_exit_socket (argv : list string) (status : Z) (tr : list main_call) :
  main_exit host proc argv status tr ->
  (forall d k p fd,
      In (CallSocket d k p fd) tr ->
      d = AF_INET /\ k = SOCK_RAW /\ p = IPPROTO_ICMP
      /\ (0 <= fd ->
          exists pre r, tr = pre ++ [CallClose fd r]
                        /\ forallb (fun c => negb (is_close c)) pre = true)
      /\ (fd < 0 -> forallb (fun c => negb (is_close c)) tr = true /\ status = 1))
  /\ (forall fd r,
         In (CallClose fd r) tr ->
         0 <= fd /\ In (CallSocket AF_INET SOCK_RAW IPPROTO_ICMP fd) tr).
Proof.
  intros E. destruct E as [Hn | r addr Hn Hp Hr | addr sock msg Hn Hp Hs
                           | addr sock shown_pid pid result ptr closed Hn Hp Hs P].
  - split; intros; cbn in *; intuition discriminate.
  - split; intros; cbn in *; intuition discriminate.
  - split.
    + intros d k p fd Hin. cbn in Hin.
      destruct Hin as [H|[H|[H|[H|[H|[]]]]]]; try discriminate H.
      inversion H; subst.
      split; [reflexivity|]. split; [reflexivity|]. split; [reflexivity|].
      split; [intros; lia | intros _; split; reflexivity].
    + intros fd r Hin. cbn in Hin. intuition discriminate.
  - split.
    + intros d k p fd Hin.
      rewrite in_app_iff in Hin. destruct Hin as [Hin|Hin].
      2:{ exfalso. rewrite in_app_iff in Hin. destruct Hin as [Hin|Hin].
          - revert Hin. apply not_in_map_Base. discriminate.
          - cbn in Hin. intuition discriminate. }
      cbn in Hin. destruct Hin as [H|[H|[H|[H|[H|[]]]]]]; try discriminate H.
      inversion H; subst.
      split; [reflexivity|]. split; [reflexivity|]. split; [reflexivity|].
      split; [|intros; lia].
      intros _.
      exists ([CallInetPton AF_INET (arg argv 1) 1 addr;
               CallSocket AF_INET SOCK_RAW IPPROTO_ICMP fd;
               CallGetpid shown_pid;
               Base (CallCout ("PING " ++ arg argv 1 ++ " com ID="
                               ++ to_string shown_pid));
               CallGetpid pid]
              ++ map Base ptr
              ++ [Base (CallCout (if success result
                                  then response_line proc result
                                  else "Falha no ping para " ++ arg argv 1))]),
        closed.
      split; [rewrite <- !app_assoc; reflexivity|].
      rewrite !forallb_app, no_close_in_base. reflexivity.
    + intros fd r Hin.
      rewrite !in_app_iff in Hin. destruct Hin as [Hin|[Hin|Hin]].
      * cbn in Hin. intuition discriminate.
      * exfalso. revert Hin. apply not_in_map_Base. discriminate.
      * cbn in Hin. destruct Hin as [H|[H|[]]]; try discriminate H.
        inversion H; subst. split; [assumption|]. cbn. tauto.
Qed.

Lemma main_exit_status (argv : list string) (status : Z) (tr : list main_call) :
  main_exit host proc argv status tr ->
  (status = 0 \/ status = 1)
  /\ (status = 0 ->
      exists fd pid received buffer from,
        In (CallSocket AF_INET SOCK_RAW IPPROTO_ICMP fd) tr
        /\ In (CallGetpid pid) tr
        /\ In (Base (CallRecvfrom fd BUFFER_SIZE 0 received buffer from)) tr
        /\ 0 < received
        /\ truncated received buffer = false
        /\ matches host (pid mod 65536) DEFAULT_SEQUENCE buffer = true).
Proof.
  intros E. destruct E as [Hn | r addr Hn Hp Hr | addr sock msg Hn Hp Hs
                           | addr sock shown_pid pid result ptr closed Hn Hp Hs P].
  1-3: split; [right; reflexivity | discriminate].
  split; [destruct (success result); auto|].
  intros Hst. assert (success result = true) as Hok
    by (destruct (success result); [reflexivity | discriminate Hst]).
  rewrite land_65535 in P.
  destruct P; try discriminate Hok.
  exists sock, pid, received, buffer, from.
  split; [cbn; tauto|]. split; [cbn; tauto|].
  split; [|repeat split; assumption].
  rewrite !in_app_iff. right. left. apply in_map_Base. cbn. tauto.
Qed.

Lemma main_exit_request (argv : list string) (status : Z) (tr : list main_call) :
  main_exit host proc argv status tr ->
  forall s pkt f d r,
    In (Base (CallSendto s pkt f d r)) tr ->
    exists pid addr,
      In (CallGetpid pid) tr
      /\ In (CallSocket AF_INET SOCK_RAW IPPROTO_ICMP s) tr /\ 0 <= s
      /\ lib_inet_pton proc AF_INET (arg argv 1) = (1, addr)
      /\ d = {| sin_family := AF_INET; sin_port := 0; sin_addr := addr |}
      /\ f = 0
      /\ pkt = create_icmp_echo_request host (pid mod 65536) 1 "PING_PAYLOAD_1"
      /\ icmp_checksum host pkt = 0.
Proof.
  intros E s pkt f d r Hin.
  destruct E as [Hn | r0 addr Hn Hp Hr | addr sock msg Hn Hp Hs
                 | addr sock shown_pid pid result ptr closed Hn Hp Hs P].
  1-3: cbn in Hin; exfalso;
       repeat match goal with
              | H : _ \/ _ |- _ => destruct H as [H|H]
              | H : False |- _ => destruct H
              | H : _ = Base _ |- _ => discriminate H || (inversion H; clear H)
              end.
  rewrite !in_app_iff in Hin. destruct Hin as [Hin|[Hin|Hin]].
  - exfalso. cbn in Hin.
    repeat match goal with
           | H : _ \/ _ |- _ => destruct H as [H|H]
           | H : False |- _ => destruct H
           | H : _ = Base _ |- _ => discriminate H || (inversion H; clear H)
           end.
  - apply in_map_Base in Hin. rewrite land_65535 in P.
    destruct (ping_path_one_request host sock _ (pid mod 65536) DEFAULT_SEQUENCE
                result ptr P) as (t0 & sent & rest & Etr & Hrest).
    rewrite Etr in Hin. cbn [In] in Hin.
    destruct Hin as [H|[H|Hin]]; [discriminate H | |].
    + inversion H; subst. exists pid, addr.
      split; [cbn; tauto|]. split; [cbn; tauto|].
      repeat split; try assumption; try reflexivity.
      apply icmp_checksum_patched_request.
      apply Z.mod_pos_bound. lia.
    + exfalso. rewrite forallb_forall in Hrest.
      specialize (Hrest _ Hin). discriminate Hrest.
  - exfalso. cbn in Hin.
    repeat match goal with
           | H : _ \/ _ |- _ => destruct H as [H|H]
           | H : False |- _ => destruct H
           | H : _ = Base _ |- _ => destruct (success result); discriminate H
           end.
Qed.

End MainFacts.

(** X14. Socket life cycle.  [main] asks only for a raw IPv4 ICMP
    socket; a descriptor it obtained is closed exactly once, by the last
    call of the run; when [socket] fails nothing is closed and the exit
    status is 1; and [main] closes nothing but the descriptor it
    obtained. *)
Theorem main_closes_its_socket
  (host : endianness) (W : Type) (proc : process W) (argv : list string) (w : W) :
  (forall d k p fd,
      In (CallSocket d k p fd) (snd (run_main host proc argv w)) ->
      d = AF_INET /\ k = SOCK_RAW /\ p = IPPROTO_ICMP
      /\ (0 <= fd ->
          exists pre r,
            snd (run_main host proc argv w) = pre ++ [CallClose fd r]
            /\ forallb (fun c => negb (is_close c)) pre = true)
      /\ (fd < 0 ->
          forallb (fun c => negb (is_close c)) (snd (run_main host proc argv w)) = true
          /\ fst (run_main host proc argv w) = 1))
  /\ (forall fd r,
         In (CallClose fd r) (snd (run_main host proc argv w)) ->
         0 <= fd
         /\ In (CallSocket AF_INET SOCK_RAW IPPROTO_ICMP fd)
               (snd (run_main host proc argv w))).
Proof.
  apply (main_exit_socket host W proc argv). apply run_main_exit.
Qed.

(** X15. Exit status.  [main] returns 0 or 1, and it returns 0 only when
    a datagram was received on its socket that is long enough and whose
    ICMP header is the Echo Reply for the identifier [pid mod 65536] and
    the sequence 1. *)
Theorem main_exit_status_zero
  (host : endianness) (W : Type) (proc : process W) (argv : list string) (w : W) :
  (fst (run_main host proc argv w) = 0 \/ fst (run_main host proc argv w) = 1)
  /\ (fst (run_main host proc argv w) = 0 ->
      exists fd pid received buffer from,
        In (CallSocket AF_INET SOCK_RAW IPPROTO_ICMP fd)
           (snd (run_main host proc argv w))
        /\ In (CallGetpid pid) (snd (run_main host proc argv w))
        /\ In (Base (CallRecvfrom fd BUFFER_SIZE 0 received buffer from))
              (snd (run_main host proc argv w))
        /\ 0 < received
        /\ truncated received buffer = false
        /\ matches host (pid mod 65536) DEFAULT_SEQUENCE buffer = true).
Proof.
  apply (main_exit_status host W proc argv). apply run_main_exit.
Qed.

(** X16. What [main] sends.  Any datagram sent by [main] goes out on the
    socket it opened, to the address [inet_pton] produced from its
    argument, with flags 0; it is the Echo Request for the identifier
    [pid mod 65536] and the sequence 1 with the payload
    [PING_PAYLOAD_1], and it verifies. *)
Theorem main_sends_own_echo_request
  (host : endianness) (W : Type) (proc : process W) (argv : list string) (w : W)
  (s : Z) (pkt : list byte) (f : Z) (d : sockaddr_in) (r : Z) :
  In (Base (CallSendto s pkt f d r)) (snd (run_main host proc argv w)) ->
  exists pid addr,
    In (CallGetpid pid) (snd (run_main host proc argv w))
    /\ In (CallSocket AF_INET SOCK_RAW IPPROTO_ICMP s)
          (snd (run_main host proc argv w))
    /\ 0 <= s
    /\ lib_inet_pton proc AF_INET (arg argv 1) = (1, addr)
    /\ d = {| sin_family := AF_INET; sin_port := 0; sin_addr := addr |}
    /\ f = 0
    /\ pkt = create_icmp_echo_request host (pid mod 65536) 1 "PING_PAYLOAD_1"
    /\ icmp_checksum host pkt = 0.
Proof.
  apply (main_exit_request host W proc argv (fst (run_main host proc argv w))).
  apply run_main_exit.
Qed.

(** * Instances of the further properties *)

Lemma icmp_checksum_detects_word_change_witness :
  Nat.even (List.length (@nil byte)) = true
  /\ icmp_checksum LittleEndian ([] ++ x00 :: x00 :: [xff; xff]) = 0
  /\ icmp_checksum LittleEndian ([] ++ x00 :: x01 :: [xff; xff]) <> 0.
Proof.
  assert (Nat.even (List.length (@nil byte)) = true) as Hev by reflexivity.
  assert (be16 x00 x00 <> be16 x00 x01) as Hne
    by (vm_compute; intros H; discriminate H).
  assert (~ (be16 x00 x00 = 0 /\ be16 x00 x01 = 65535)) as Hlo
    by (vm_compute; intros [_ H]; discriminate H).
  assert (~ (be16 x00 x00 = 65535 /\ be16 x00 x01 = 0)) as Hhi
    by (vm_compute; intros [H _]; discriminate H).
  assert (icmp_checksum LittleEndian ([] ++ x00 :: x00 :: [xff; xff]) = 0) as Hok
    by reflexivity.
  split; [exact Hev|]. split; [exact Hok|].
  exact (icmp_checksum_detects_word_change LittleEndian [] [xff; xff]
           x00 x00 x00 x01 Hev Hne Hlo Hhi Hok).
Defined.

Lemma create_icmp_echo_request_verifies_witness :
  0 <= 1234 < 65536 /\ 0 <= 1 < 65536
  /\ icmp_checksum BigEndian
       (create_icmp_echo_request BigEndian 1234 1 "PING_PAYLOAD_1") = 0.
Proof.
  assert (0 <= 1234 < 65536) as Hid by lia.
  assert (0 <= 1 < 65536) as Hseq by lia.
  split; [exact Hid|]. split; [exact Hseq|].
  exact (create_icmp_echo_request_verifies BigEndian 1234 1 "PING_PAYLOAD_1" Hid Hseq).
Defined.

Lemma create_icmp_echo_request_host_independent_witness :
  0 <= 777 < 65536 /\ 0 <= 5 < 65536
  /\ create_icmp_echo_request LittleEndian 777 5 "PING_PAYLOAD_5"
     = create_icmp_echo_request BigEndian 777 5 "PING_PAYLOAD_5".
Proof.
  assert (0 <= 777 < 65536) as Hid by lia.
  assert (0 <= 5 < 65536) as Hseq by lia.
  split; [exact Hid|]. split; [exact Hseq|].
  exact (create_icmp_echo_request_host_independent 777 5 "PING_PAYLOAD_5" Hid Hseq).
Defined.

Lemma echo_request_reply_validation_witness :
  0 <= 1234 < 65536 /\ 0 <= 1 < 65536
  /\ validate_icmp_response LittleEndian
       (icmphdr_at LittleEndian
          (create_icmp_echo_request LittleEndian 1234 1 "PING_PAYLOAD_1") 0)
       1234 1 = false
  /\ validate_icmp_response LittleEndian
       (icmphdr_at LittleEndian
          (memcpy (create_icmp_echo_request LittleEndian 1234 1 "PING_PAYLOAD_1")
                  0 [x00]) 0)
       1234 1 = true.
Proof.
  assert (0 <= 1234 < 65536) as Hid by lia.
  assert (0 <= 1 < 65536) as Hseq by lia.
  pose proof (echo_request_reply_validation LittleEndian 1234 1 "PING_PAYLOAD_1"
                1234 1 Hid Hseq) as H.
  cbv zeta in H. destruct H as [Hreq Hrep].
  split; [exact Hid|]. split; [exact Hseq|]. split; [exact Hreq|].
  apply Hrep. split; reflexivity.
Defined.

Lemma send_ping_call_order_witness :
  In (CallRecvfrom 3 1500 0 42 (echoed_datagram ++ repeat x00 1458) localhost)
     (snd (run_send_ping LittleEndian echo_os 3 localhost 777 5 0))
  /\ exists t0 sent ready,
      0 < sent /\ 0 < ready
      /\ firstn 4 (snd (run_send_ping LittleEndian echo_os 3 localhost 777 5 0))
         = sent_calls LittleEndian 3 localhost 777 5 t0 sent
             ++ [wait_call 3 ready;
                 recv_call 3 42 (echoed_datagram ++ repeat x00 1458) localhost].
Proof.
  assert (In (CallRecvfrom 3 1500 0 42 (echoed_datagram ++ repeat x00 1458) localhost)
             (snd (run_send_ping LittleEndian echo_os 3 localhost 777 5 0))) as Hin
    by (right; right; right; left; reflexivity).
  split; [exact Hin|].
  destruct (proj2 (send_ping_call_order LittleEndian Z echo_os 3 localhost 777 5 0)
              _ _ _ _ _ _ Hin) as (_ & _ & _ & H).
  exact H.
Defined.

Lemma send_ping_reads_inside_datagram_witness :
  success (fst (run_send_ping LittleEndian echo_os 3 localhost 777 5 0)) = true
  /\ exists received buffer from,
      In (CallRecvfrom 3 BUFFER_SIZE 0 received buffer from)
         (snd (run_send_ping LittleEndian echo_os 3 localhost 777 5 0))
      /\ 0 <= get_ip_header_length buffer
      /\ get_ip_header_length buffer + sizeof_icmphdr <= received
      /\ get_ip_header_length buffer + sizeof_icmphdr <= 68
      /\ (0 < get_ip_header_length buffer -> 8 < received).
Proof.
  assert (success (fst (run_send_ping LittleEndian echo_os 3 localhost 777 5 0)) = true)
    as Hs by reflexivity.
  split; [exact Hs|].
  exact (send_ping_reads_inside_datagram LittleEndian Z echo_os 3 localhost 777 5 0 Hs).
Defined.

Lemma send_ping_accepts_echo_witness :
  success (fst (run_send_ping LittleEndian echo_os 3 localhost 777 5 0)) = true
  /\ bytes_received (fst (run_send_ping LittleEndian echo_os 3 localhost 777 5 0))
     = Z.of_nat (String.length ("PING_PAYLOAD_" ++ to_string 5))
  /\ ttl (fst (run_send_ping LittleEndian echo_os 3 localhost 777 5 0))
     = byte_val
         (byte_at
            [x45; x00; x00; x2a; x00; x00; x00; x00; x40; x01;
             x00; x00; x7f; x00; x00; x01; x7f; x00; x00; x01] 8)
  /\ from_addr (fst (run_send_ping LittleEndian echo_os 3 localhost 777 5 0))
     = inet_ntop (sin_addr localhost).
Proof.
  assert (0 <= 777 < 65536) as Hid by lia.
  assert (0 <= 5 < 65536) as Hseq by lia.
  refine (send_ping_accepts_echo LittleEndian Z echo_os 3 localhost 777 5 0
            x45 [x00; x00; x2a; x00; x00; x00; x00; x40; x01;
                 x00; x00; x7f; x00; x00; x01; x7f; x00; x00; x01]
            (repeat x00 1458) xd0 xee 42 localhost Hid Hseq _ _ _ _ _).
  - right; right; right; left; reflexivity.
  - reflexivity.
  - cbn [List.length]. lia.
  - reflexivity.
  - unfold BUFFER_SIZE. lia.
Defined.

Lemma send_ping_timeout_exit_witness :
  In (wait_call 3 0) (snd (run_send_ping LittleEndian silent_os 3 localhost 1234 1 0))
  /\ fst (run_send_ping LittleEndian silent_os 3 localhost 1234 1 0) = failed 1234 1.
Proof.
  assert (In (wait_call 3 0)
             (snd (run_send_ping LittleEndian silent_os 3 localhost 1234 1 0))) as Hin
    by (right; right; left; reflexivity).
  split; [exact Hin|].
  exact (proj1 (send_ping_timeout_exit LittleEndian Z silent_os 3 localhost 1234 1 0 Hin)).
Defined.

Lemma main_closes_its_socket_witness :
  In (CallSocket AF_INET SOCK_RAW IPPROTO_ICMP 3)
     (snd (run_main LittleEndian (loopback_process LittleEndian)
             ["icmp"; "127.0.0.1"]%string (0, [])))
  /\ exists pre r,
      snd (run_main LittleEndian (loopback_process LittleEndian)
             ["icmp"; "127.0.0.1"]%string (0, []))
      = pre ++ [CallClose 3 r]
      /\ forallb (fun c => negb (is_close c)) pre = true.
Proof.
  assert (In (CallSocket AF_INET SOCK_RAW IPPROTO_ICMP 3)
             (snd (run_main LittleEndian (loopback_process LittleEndian)
                     ["icmp"; "127.0.0.1"]%string (0, [])))) as Hin
    by (right; left; reflexivity).
  split; [exact Hin|].
  destruct (proj1 (main_closes_its_socket LittleEndian _ (loopback_process LittleEndian)
                     ["icmp"; "127.0.0.1"]%string (0, []))
              _ _ _ _ Hin) as (_ & _ & _ & Hclose & _).
  apply Hclose. lia.
Defined.

Lemma main_exit_status_zero_witness :
  fst (run_main LittleEndian (loopback_process LittleEndian)
         ["icmp"; "127.0.0.1"]%string (0, [])) = 0
  /\ exists fd pid received buffer from,
      In (CallSocket AF_INET SOCK_RAW IPPROTO_ICMP fd)
         (snd (run_main LittleEndian (loopback_process LittleEndian)
                 ["icmp"; "127.0.0.1"]%string (0, [])))
      /\ In (CallGetpid pid)
            (snd (run_main LittleEndian (loopback_process LittleEndian)
                    ["icmp"; "127.0.0.1"]%string (0, [])))
      /\ In (Base (CallRecvfrom fd BUFFER_SIZE 0 received buffer from))
            (snd (run_main LittleEndian (loopback_process LittleEndian)
                    ["icmp"; "127.0.0.1"]%string (0, [])))
      /\ 0 < received
      /\ truncated received buffer = false
      /\ matches LittleEndian (pid mod 65536) DEFAULT_SEQUENCE buffer = true.
Proof.
  assert (fst (run_main LittleEndian (loopback_process LittleEndian)
                 ["icmp"; "127.0.0.1"]%string (0, [])) = 0) as Hz by reflexivity.
  split; [exact Hz|].
  exact (proj2 (main_exit_status_zero LittleEndian _ (loopback_process LittleEndian)
                  ["icmp"; "127.0.0.1"]%string (0, [])) Hz).
Defined.

Lemma main_sends_own_echo_request_witness :
  In (Base (CallSendto 3
              (create_icmp_echo_request LittleEndian 4464 1 "PING_PAYLOAD_1")
              0 localhost 22))
     (snd (run_main LittleEndian (loopback_process LittleEndian)
             ["icmp"; "127.0.0.1"]%string (0, [])))
  /\ icmp_checksum LittleEndian
       (create_icmp_echo_request LittleEndian 4464 1 "PING_PAYLOAD_1") = 0.
Proof.
  assert (In (Base (CallSendto 3
                      (create_icmp_echo_request LittleEndian 4464 1 "PING_PAYLOAD_1")
                      0 localhost 22))
             (snd (run_main LittleEndian (loopback_process LittleEndian)
                     ["icmp"; "127.0.0.1"]%string (0, [])))) as Hin
    by (do 6 right; left; reflexivity).
  split; [exact Hin|].
  destruct (main_sends_own_echo_request LittleEndian _ (loopback_process LittleEndian)
              ["icmp"; "127.0.0.1"]%string (0, []) _ _ _ _ _ Hin)
    as (pid & addr & _ & _ & _ & _ & _ & _ & _ & Hck).
  exact Hck.
Defined.
